(** * MinerU API client: task submission, polling and result retrieval

    A shallow embedding of [src/summeryanyfile/core/mineru_api_client.py]
    (class [MineruAPIClient]).  The client talks to its environment (file
    system, clock, network) and polls in a [while True] loop, so the
    coroutines are interaction trees over an event signature; a handler
    gives the events their meaning in an explicit world (virtual clock,
    scripted service replies, trace of the effects performed).

    What the embedding leaves out or abstracts:
    - time is a virtual clock counted in whole time-units, where the code
      reads [time.time()] as a float; reading the clock takes no time, a
      request takes the latency of its reply, a sleep its delay;
    - logging and the synchronous wrapper are left out; [close] and the
      identity of the pooled connection are modelled on their own, in
      [Connection], since the coroutines only need to know that the
      connection was opened;
    - [httpx], [zipfile] and [str()] of containers are libraries, not code
      of the client: responses and archives are given by what the client
      reads from them, and the rest is a parameter of the client. *)

From Stdlib Require Import ZArith NArith QArith List String Ascii Bool Lia.
From Stdlib Require Import Strings.Byte DecimalString.
From ITree Require Import ITree ITreeFacts Events.State Events.StateFacts.
From ITree Require Import Props.HasPost.
Import ListNotations.

Set Warnings "-register-all".
Local Open Scope string_scope.
Local Open Scope Z_scope.

(** ** Python values

    What [response.json()] can return, and what the dictionaries built by
    the client hold.  A [str] is kept as its UTF-8 bytes, a [dict] as an
    association list in insertion order. *)

Inductive pyval : Type :=
| PNone
| PBool (b : bool)
| PInt (z : Z)
| PFloat (q : Q)
| PStr (s : string)
| PList (l : list pyval)
| PDict (d : list (string * pyval)).

Definition bytes := list byte.

(** [bool(v)]: Python's truth value. *)
Definition truthy (v : pyval) : bool :=
  match v with
  | PNone => false
  | PBool b => b
  | PInt z => negb (z =? 0)
  | PFloat q => negb (Qeq_bool q 0)
  | PStr s => negb (s =? "")%string
  | PList l => match l with [] => false | _ => true end
  | PDict d => match d with [] => false | _ => true end
  end.

(** [v == z] for an [int] literal [z]: [bool] and [float] compare as numbers. *)
Definition py_eq_int (v : pyval) (z : Z) : bool :=
  match v with
  | PInt x => x =? z
  | PBool b => (if b then 1 else 0) =? z
  | PFloat q => Qeq_bool q (inject_Z z)
  | _ => false
  end.

(** [v == s] for a [str] literal [s]: only an equal [str] compares equal. *)
Definition py_eq_str (v : pyval) (s : string) : bool :=
  match v with
  | PStr x => (x =? s)%string
  | _ => false
  end.

(** [Optional[str]] arguments: [None] and [""] are false. *)
Definition truthy_opt (o : option string) : bool :=
  match o with
  | Some s => negb (s =? "")%string
  | None => false
  end.

Definition string_of_Z (z : Z) : string := NilZero.string_of_int (Z.to_int z).

(** ** Exceptions *)

Inductive exn : Type :=
| ValueError (msg : string)
| FileNotFoundError (msg : string)
| TimeoutError (msg : string)
| AttributeError (msg : string)
| HTTPStatusError (status : Z) (msg : string)
| OtherError (msg : string).

Definition py_type_name (v : pyval) : string :=
  match v with
  | PNone => "NoneType"
  | PBool _ => "bool"
  | PInt _ => "int"
  | PFloat _ => "float"
  | PStr _ => "str"
  | PList _ => "list"
  | PDict _ => "dict"
  end.

(** Lookup in a [dict]; its keys are distinct. *)
Fixpoint assoc_get (k : string) (d : list (string * pyval)) : option pyval :=
  match d with
  | [] => None
  | (k', v) :: d' => if (k' =? k)%string then Some v else assoc_get k d'
  end.

(** [v.get(k, default)]: defined on a [dict] only. *)
Definition py_get (v : pyval) (k : string) (default : pyval) : exn + pyval :=
  match v with
  | PDict d =>
      inr (match assoc_get k d with Some x => x | None => default end)
  | _ =>
      inl (AttributeError
             ("'" ++ py_type_name v ++ "' object has no attribute 'get'"))
  end.

(** ** Strings and paths *)

Fixpoint rev_string_acc (s acc : string) : string :=
  match s with
  | EmptyString => acc
  | String c s' => rev_string_acc s' (String c acc)
  end.

Definition rev_string (s : string) : string := rev_string_acc s EmptyString.

(** [s.endswith(suffix)]. *)
Definition endswith (s suffix : string) : bool :=
  prefix (rev_string suffix) (rev_string s).

(** Components of a POSIX path: the text between slashes. *)
Fixpoint split_slash (s cur : string) : list string :=
  match s with
  | EmptyString => [rev_string cur]
  | String c s' =>
      if Ascii.eqb c "/" then rev_string cur :: split_slash s' EmptyString
      else split_slash s' (String c cur)
  end.

(** A plain name: no slash in it. *)
Fixpoint no_slash (s : string) : bool :=
  match s with
  | EmptyString => true
  | String c s' => negb (Ascii.eqb c "/") && no_slash s'
  end.

(** [Path(p).name]: the last component, empty and ["."] components dropped. *)
Definition path_name (p : string) : string :=
  last (filter (fun c => negb ((c =? "")%string || (c =? ".")%string))
               (split_slash p EmptyString))
       "".

(** ** Base64 (RFC 4648, standard alphabet with padding)

    [base64.b64encode] as the submission uses it, and the decoder that the
    service applies to the [file] field. *)

Definition b64_alphabet : string :=
  "ABCDEFGHIJKLMNOPQRSTUVWXYZabcdefghijklmnopqrstuvwxyz0123456789+/".

Definition b64_pad : ascii := "="%char.

Definition b64_char (n : N) : ascii :=
  match String.get (N.to_nat n) b64_alphabet with
  | Some c => c
  | None => b64_pad
  end.

Fixpoint index_from (c : ascii) (s : string) (i : N) : option N :=
  match s with
  | EmptyString => None
  | String c' s' => if Ascii.eqb c c' then Some i else index_from c s' (N.succ i)
  end.

Definition b64_index (c : ascii) : option N := index_from c b64_alphabet 0%N.

Definition byte_of_N (n : N) : byte :=
  match Byte.of_N n with
  | Some b => b
  | None => x00
  end.

Fixpoint b64encode (bs : bytes) : string :=
  match bs with
  | [] => ""
  | [a] =>
      let n := (Byte.to_N a * 16)%N in
      String (b64_char (n / 64)) (String (b64_char (n mod 64))
        (String b64_pad (String b64_pad "")))
  | [a; b] =>
      let n := ((Byte.to_N a * 256 + Byte.to_N b) * 4)%N in
      String (b64_char (n / 4096)) (String (b64_char ((n / 64) mod 64))
        (String (b64_char (n mod 64)) (String b64_pad "")))
  | a :: b :: c :: rest =>
      let n := (Byte.to_N a * 65536 + Byte.to_N b * 256 + Byte.to_N c)%N in
      String (b64_char (n / 262144)) (String (b64_char ((n / 4096) mod 64))
        (String (b64_char ((n / 64) mod 64)) (String (b64_char (n mod 64))
          (b64encode rest))))
  end.

Fixpoint b64decode (s : string) : option bytes :=
  match s with
  | EmptyString => Some []
  | String c1 (String c2 (String c3 (String c4 rest))) =>
      match b64_index c1, b64_index c2 with
      | Some i1, Some i2 =>
          let b1 := byte_of_N (i1 * 4 + i2 / 16) in
          if Ascii.eqb c3 b64_pad then
            if Ascii.eqb c4 b64_pad && (rest =? "")%string then Some [b1] else None
          else
            match b64_index c3 with
            | Some i3 =>
                let b2 := byte_of_N ((i2 mod 16) * 16 + i3 / 4) in
                if Ascii.eqb c4 b64_pad then
                  if (rest =? "")%string then Some [b1; b2] else None
                else
                  match b64_index c4, b64decode rest with
                  | Some i4, Some bs =>
                      Some (b1 :: b2 :: byte_of_N ((i3 mod 4) * 64 + i4) :: bs)
                  | _, _ => None
                  end
            | None => None
            end
      | _, _ => None
      end
  | _ => None
  end.

(** A bounded check, for facts about the 64 digits: [p] holds of every
    number below [k]. *)
Fixpoint all_below (k : nat) (p : N -> bool) : bool :=
  match k with
  | O => true
  | S k' => p (N.of_nat k') && all_below k' p
  end.

(** ** UTF-8 ([bytes.decode('utf-8')], strict)

    A [str] is kept as its UTF-8 bytes, so decoding is validation: the
    automaton below accepts exactly the well-formed sequences of RFC 3629
    (no overlong forms, no surrogates, nothing above U+10FFFF). *)

Inductive utf8_state : Type :=
| U0      (* between code points *)
| U1      (* one continuation byte to go *)
| U2      (* two continuation bytes to go *)
| U3      (* three continuation bytes to go *)
| UE0     (* after E0: next in A0..BF *)
| UED     (* after ED: next in 80..9F *)
| UF0     (* after F0: next in 90..BF *)
| UF4.    (* after F4: next in 80..8F *)

Definition in_range (lo hi n : N) : bool := ((lo <=? n) && (n <=? hi))%N.

Definition utf8_step (st : utf8_state) (b : byte) : option utf8_state :=
  let n := Byte.to_N b in
  match st with
  | U0 =>
      if (n <? 128)%N then Some U0
      else if in_range 194 223 n then Some U1
      else if (n =? 224)%N then Some UE0
      else if in_range 225 236 n || in_range 238 239 n then Some U2
      else if (n =? 237)%N then Some UED
      else if (n =? 240)%N then Some UF0
      else if in_range 241 243 n then Some U3
      else if (n =? 244)%N then Some UF4
      else None
  | U1 => if in_range 128 191 n then Some U0 else None
  | U2 => if in_range 128 191 n then Some U1 else None
  | U3 => if in_range 128 191 n then Some U2 else None
  | UE0 => if in_range 160 191 n then Some U1 else None
  | UED => if in_range 128 159 n then Some U1 else None
  | UF0 => if in_range 144 191 n then Some U2 else None
  | UF4 => if in_range 128 143 n then Some U2 else None
  end.

Fixpoint utf8_run (st : utf8_state) (bs : bytes) : option utf8_state :=
  match bs with
  | [] => Some st
  | b :: bs' =>
      match utf8_step st b with
      | Some st' => utf8_run st' bs'
      | None => None
      end
  end.

(** [bs.decode('utf-8')]: [None] stands for [UnicodeDecodeError]. *)
Definition decode_utf8 (bs : bytes) : option string :=
  match utf8_run U0 bs with
  | Some U0 => Some (string_of_list_byte bs)
  | _ => None
  end.

(** ** The environment: events and the world that answers them *)

(** An [httpx.Response], by what the client reads from it. *)
Record response : Type := {
  status_code : Z;
  content : bytes;            (* [response.content] *)
  text : string;              (* [response.text] *)
  json : string + pyval       (* [response.json()]; [inl msg]: it raises *)
}.

Inductive http_outcome : Type :=
| NetError (msg : string)     (* the transport raises *)
| Responded (r : response).

(** A reply of the network, and the time it takes to arrive. *)
Record http_reply : Type := {
  latency : Z;
  outcome : http_outcome
}.

Inductive fsnode : Type :=
| RegularFile (data : bytes)
| Directory.

(** A zip archive, by the two methods the client calls.  Members are
    addressed by name, as [ZipFile.read(name)] does: [read] is what the
    archive's name table gives for a name, whatever else the archive
    holds. *)
Record ZipFile : Type := {
  namelist : list string;
  read : string -> option bytes   (* [None]: reading the member raises *)
}.

Variant ioE : Type -> Type :=
| PathExists (p : string) : ioE bool               (* [Path(p).exists()] *)
| ReadFile (p : string) : ioE (exn + bytes)        (* [open(p, "rb").read()] *)
| AcquireClient : ioE unit                         (* [self._get_client()] *)
| Post (endpoint : string) (payload : pyval) : ioE http_outcome
| Get (endpoint : string) : ioE http_outcome
| Fetch (url : string) : ioE http_outcome          (* GET on a fresh client *)
| Time : ioE Z                                     (* [time.time()] *)
| Sleep (d : Z) : ioE unit.                        (* [asyncio.sleep(d)] *)

(** What the trace records of each event. *)
Variant event : Type :=
| EvExists (p : string)
| EvRead (p : string)
| EvAcquire
| EvPost (endpoint : string) (payload : pyval)
| EvGet (endpoint : string)
| EvFetch (url : string)
| EvTime
| EvSleep (d : Z).

Definition is_network (e : event) : bool :=
  match e with
  | EvPost _ _ | EvGet _ | EvFetch _ => true
  | _ => false
  end.

Definition is_sleep (e : event) : bool :=
  match e with
  | EvSleep _ => true
  | _ => false
  end.

Definition is_get (e : event) : bool :=
  match e with
  | EvGet _ => true
  | _ => false
  end.

(** The world: a virtual clock in whole time-units, the file system, the
    service's scripted replies, and the trace of events so far (oldest
    first).  The [n]-th GET on the pooled connection is answered by
    [on_get n], so a task can change state from one status query to the
    next. *)
Record world : Type := {
  clock : Z;
  fs : string -> option fsnode;
  on_post : string -> pyval -> http_reply;
  on_get : nat -> string -> http_reply;
  gets_done : nat;
  on_fetch : string -> http_reply;
  pooled : bool;
  trace : list event
}.

Definition log (e : event) (w : world) : world :=
  {| clock := clock w; fs := fs w; on_post := on_post w; on_get := on_get w;
     gets_done := gets_done w; on_fetch := on_fetch w; pooled := pooled w;
     trace := trace w ++ [e] |}.

(** Time only moves forward: a non-positive delay takes no time. *)
Definition advance (d : Z) (w : world) : world :=
  {| clock := clock w + Z.max 0 d; fs := fs w; on_post := on_post w;
     on_get := on_get w; gets_done := gets_done w; on_fetch := on_fetch w;
     pooled := pooled w; trace := trace w |}.

Definition count_get (w : world) : world :=
  {| clock := clock w; fs := fs w; on_post := on_post w; on_get := on_get w;
     gets_done := S (gets_done w); on_fetch := on_fetch w; pooled := pooled w;
     trace := trace w |}.

Definition open_pooled (w : world) : world :=
  {| clock := clock w; fs := fs w; on_post := on_post w; on_get := on_get w;
     gets_done := gets_done w; on_fetch := on_fetch w; pooled := true;
     trace := trace w |}.

Definition read_file (w : world) (p : string) : exn + bytes :=
  match fs w p with
  | Some (RegularFile data) => inr data
  | Some Directory => inl (OtherError ("IsADirectoryError: " ++ p))
  | None => inl (FileNotFoundError p)
  end.

(** One event, answered by the world. *)
Definition step {T : Type} (e : ioE T) (w : world) : world * T :=
  match e in ioE T return world * T with
  | PathExists p =>
      (log (EvExists p) w, match fs w p with Some _ => true | None => false end)
  | ReadFile p => (log (EvRead p) w, read_file w p)
  | AcquireClient => (log EvAcquire (open_pooled w), tt)
  | Post ep payload =>
      let r := on_post w ep payload in
      (advance (latency r) (log (EvPost ep payload) w), outcome r)
  | Get ep =>
      let r := on_get w (gets_done w) ep in
      (advance (latency r) (count_get (log (EvGet ep) w)), outcome r)
  | Fetch url =>
      let r := on_fetch w url in
      (advance (latency r) (log (EvFetch url) w), outcome r)
  | Time => (log EvTime w, clock w)
  | Sleep d => (advance d (log (EvSleep d) w), tt)
  end.

Definition handle : ioE ~> Monads.stateT world (itree void1) :=
  fun _ e w => Ret (step e w).

(** Running a coroutine in a world. *)
Definition run {R : Type} (t : itree ioE R) (w : world) : itree void1 (world * R) :=
  interp_state handle t w.

(** ** Coroutines that may raise *)

Definition py (R : Type) : Type := itree ioE (exn + R).

Definition pure {R : Type} (r : R) : py R := Ret (inr r).

Definition raise {R : Type} (e : exn) : py R := Ret (inl e).

Definition lift {R : Type} (r : exn + R) : py R := Ret r.

Definition bind_py {A B : Type} (m : py A) (k : A -> py B) : py B :=
  ITree.bind m (fun r =>
    match r with
    | inl e => Ret (inl e)
    | inr a => k a
    end).

Definition perform {R : Type} (e : ioE R) : py R :=
  ITree.bind (ITree.trigger e) (fun r => Ret (inr r)).

(** [try: m except Exception as e: h e]. *)
Definition try_except {A : Type} (m : py A) (h : exn -> py A) : py A :=
  ITree.bind m (fun r =>
    match r with
    | inl e => h e
    | inr a => Ret (inr a)
    end).

(** [while True: body], where the body answers [Some v] for [return v] and
    [None] when it reaches its end and the loop goes round again. *)
Definition while_true {R : Type} (body : py (option R)) : py R :=
  ITree.iter (fun _ : unit =>
    ITree.bind body (fun r =>
      match r with
      | inl e => Ret (inr (inl e))
      | inr None => Ret (inl tt)
      | inr (Some v) => Ret (inr (inr v))
      end)) tt.

Declare Scope py_scope.
Delimit Scope py_scope with py.
Notation "x <- m ;; k" := (bind_py m (fun x => k))
  (at level 61, m at next level, right associativity) : py_scope.
Notation "m ;; k" := (bind_py m (fun _ => k))
  (at level 61, right associativity) : py_scope.
Local Open Scope py_scope.

(** ** The client *)

Record MineruAPIClient : Type := {
  api_key : string;
  base_url : string;
  timeout : Z
}.

Definition TASK_ENDPOINT : string := "/extract/task".
Definition RESULT_ENDPOINT (task_id : string) : string := "/extract/task/" ++ task_id.
Definition DEFAULT_POLL_INTERVAL : Z := 3.
Definition DEFAULT_MAX_WAIT_TIME : Z := 300.

Definition is_available (self : MineruAPIClient) : bool :=
  negb (api_key self =? "")%string.

(** Line 328, [result.get("full_zip_url") or result.get("md_url")]: the
    second [get] is evaluated only when the first value is false. *)
Definition select_url (result : pyval) : exn + pyval :=
  match py_get result "full_zip_url" PNone with
  | inl e => inl e
  | inr full_zip_url =>
      if truthy full_zip_url then inr full_zip_url
      else py_get result "md_url" PNone
  end.

Definition is_success (r : response) : bool :=
  (200 <=? status_code r) && (status_code r <=? 299).

Section Client.

(** Library behaviour the client relies on and this file leaves open:
    [str()] of a float, list or dict; the text of an [HTTPStatusError];
    and [zipfile.ZipFile(io.BytesIO(b))], [None] when it raises. *)
Variable py_repr : pyval -> string.
Variable http_error_text : response -> string.
Variable open_zip : bytes -> option ZipFile.

(** [str(v)], as f-strings and [str.format] apply it. *)
Definition py_str (v : pyval) : string :=
  match v with
  | PStr s => s
  | PNone => "None"
  | PBool true => "True"
  | PBool false => "False"
  | PInt z => string_of_Z z
  | _ => py_repr v
  end.

(** [str(e)] of a caught exception. *)
Definition exn_str (e : exn) : string :=
  match e with
  | ValueError msg | FileNotFoundError msg | TimeoutError msg
  | AttributeError msg | OtherError msg => msg
  | HTTPStatusError _ msg => msg
  end.

(** [response.raise_for_status()]. *)
Definition raise_for_status (r : response) : exn + unit :=
  if is_success r then inr tt
  else inl (HTTPStatusError (status_code r) (http_error_text r)).

Definition response_json (r : response) : exn + pyval :=
  match json r with
  | inl msg => inl (OtherError msg)
  | inr v => inr v
  end.

(** A request: the transport either raises or hands back a response. *)
Definition request (e : ioE http_outcome) : py response :=
  o <- perform e ;;
  match o with
  | NetError msg => raise (OtherError msg)
  | Responded r => pure r
  end.

Definition _get_client (self : MineruAPIClient) : py unit :=
  perform AcquireClient.

Definition _create_task (self : MineruAPIClient) (payload : pyval) : py pyval :=
  if negb (is_available self) then
    raise (ValueError "MinerU API Key 未配置，请设置环境变量 MINERU_API_KEY")
  else
    _get_client self ;;
    try_except
      (response <- request (Post TASK_ENDPOINT payload) ;;
       lift (raise_for_status response) ;;
       result <- lift (response_json response) ;;
       code <- lift (py_get result "code" PNone) ;;
       if negb (py_eq_int code 0) then
         error_msg <- lift (py_get result "msg" (PStr "未知错误")) ;;
         raise (ValueError ("MinerU API 错误: " ++ py_str error_msg))
       else
         data <- lift (py_get result "data" (PDict [])) ;;
         task_id <- lift (py_get data "task_id" PNone) ;;
         if negb (truthy task_id) then
           raise (ValueError "MinerU API 返回无效的任务 ID")
         else pure task_id)
      (fun e =>
         match e with
         | HTTPStatusError status _ =>
             raise (ValueError ("MinerU API 请求失败: HTTP " ++ string_of_Z status))
         | _ => raise (ValueError ("MinerU API 调用失败: " ++ exn_str e))
         end).

(** The request body of a file submission. *)
Definition file_payload (file_content : bytes) (file_name : string)
    (enable_ocr enable_formula enable_table : bool) (language : string) : pyval :=
  PDict [("file", PStr (b64encode file_content));
         ("file_name", PStr file_name);
         ("is_ocr", PBool enable_ocr);
         ("enable_formula", PBool enable_formula);
         ("enable_table", PBool enable_table);
         ("language", PStr language)].

Definition create_task_from_file (self : MineruAPIClient) (file_path : string)
    (enable_ocr enable_formula enable_table : bool) (language : string) : py pyval :=
  found <- perform (PathExists file_path) ;;
  if negb found then
    raise (FileNotFoundError ("文件不存在: " ++ file_path))
  else
    opened <- perform (ReadFile file_path) ;;
    file_content <- lift opened ;;
    _create_task self
      (file_payload file_content (path_name file_path)
         enable_ocr enable_formula enable_table language).

Definition create_task_from_url (self : MineruAPIClient) (pdf_url : string)
    (enable_ocr enable_formula enable_table : bool) (language : string) : py pyval :=
  _create_task self
    (PDict [("url", PStr pdf_url);
            ("is_ocr", PBool enable_ocr);
            ("enable_formula", PBool enable_formula);
            ("enable_table", PBool enable_table);
            ("language", PStr language)]).

Definition get_task_result (self : MineruAPIClient) (task_id : pyval) : py pyval :=
  _get_client self ;;
  try_except
    (response <- request (Get (RESULT_ENDPOINT (py_str task_id))) ;;
     lift (raise_for_status response) ;;
     lift (response_json response))
    (fun e => raise (ValueError ("获取任务结果失败: " ++ exn_str e))).

Definition timeout_error (max_wait_time : Z) : exn :=
  TimeoutError ("等待任务完成超时 (" ++ string_of_Z max_wait_time ++ "秒)").

(** One turn of the loop of [wait_for_result]. *)
Definition poll_once (self : MineruAPIClient) (task_id : pyval)
    (poll_interval max_wait_time start_time : Z) : py (option pyval) :=
  now <- perform Time ;;
  let elapsed := now - start_time in
  if max_wait_time <? elapsed then raise (timeout_error max_wait_time)
  else
    result <- get_task_result self task_id ;;
    code <- lift (py_get result "code" PNone) ;;
    if negb (py_eq_int code 0) then
      error_msg <- lift (py_get result "msg" (PStr "未知错误")) ;;
      raise (ValueError ("MinerU API 错误: " ++ py_str error_msg))
    else
      data <- lift (py_get result "data" (PDict [])) ;;
      status <- lift (py_get data "state" PNone) ;;
      if py_eq_str status "done" then pure (Some data)
      else if py_eq_str status "failed" then
        error_msg <- lift (py_get data "err_msg" (PStr "任务执行失败")) ;;
        raise (ValueError ("MinerU 解析失败: " ++ py_str error_msg))
      else
        perform (Sleep poll_interval) ;;
        pure None.

Definition poll_loop (self : MineruAPIClient) (task_id : pyval)
    (poll_interval max_wait_time start_time : Z) : py pyval :=
  while_true (poll_once self task_id poll_interval max_wait_time start_time).

Definition wait_for_result (self : MineruAPIClient) (task_id : pyval)
    (poll_interval max_wait_time : Z) : py pyval :=
  start_time <- perform Time ;;
  poll_loop self task_id poll_interval max_wait_time start_time.

(** The [for name in zip_file.namelist()] loop of [_download_markdown]:
    the first name ending in [.md] is read and decoded; [Some (inl _)]
    when that raises, [None] when the loop runs out of names. *)
Fixpoint first_md (zf : ZipFile) (names : list string) : option (exn + string) :=
  match names with
  | [] => None
  | name :: rest =>
      if endswith name ".md" then
        Some match read zf name with
             | None => inl (OtherError ("cannot read " ++ name))
             | Some data =>
                 match decode_utf8 data with
                 | None => inl (OtherError "UnicodeDecodeError")
                 | Some s => inr s
                 end
             end
      else first_md zf rest
  end.

Definition unpack_markdown (body : bytes) : exn + string :=
  match open_zip body with
  | None => inl (OtherError "BadZipFile")
  | Some zip_file =>
      match first_md zip_file (namelist zip_file) with
      | Some r => r
      | None => inr ""
      end
  end.

(** [_download_markdown(url)].  The argument is whatever the result
    dictionary held: a value that is not a [str] makes [client.get]
    raise before anything is sent. *)
Definition _download_markdown (self : MineruAPIClient) (url : pyval) : py pyval :=
  try_except
    match url with
    | PStr u =>
        response <- request (Fetch u) ;;
        lift (raise_for_status response) ;;
        if endswith u ".zip" then
          s <- lift (unpack_markdown (content response)) ;;
          pure (PStr s)
        else pure (PStr (text response))
    | _ => raise (OtherError "TypeError: invalid type for url")
    end
    (fun e => pure (PStr "")).

(** Lines 328-335 of [extract_markdown]: from the result of a finished
    task to its Markdown content. *)
Definition result_markdown (self : MineruAPIClient) (result : pyval) : py pyval :=
  md_url <- lift (select_url result) ;;
  if truthy md_url then _download_markdown self md_url
  else lift (py_get result "markdown" (PStr "")).

Definition from_opt (o : option string) : string :=
  match o with
  | Some s => s
  | None => ""
  end.

Definition extract_markdown (self : MineruAPIClient)
    (file_path pdf_url : option string)
    (enable_ocr enable_formula enable_table : bool) (language : string)
    : py (pyval * pyval) :=
  if negb (truthy_opt file_path) && negb (truthy_opt pdf_url) then
    raise (ValueError "必须提供 file_path 或 pdf_url")
  else
    task_id <- (if truthy_opt file_path then
                  create_task_from_file self (from_opt file_path)
                    enable_ocr enable_formula enable_table language
                else
                  create_task_from_url self (from_opt pdf_url)
                    enable_ocr enable_formula enable_table language) ;;
    result <- wait_for_result self task_id
                DEFAULT_POLL_INTERVAL DEFAULT_MAX_WAIT_TIME ;;
    markdown_content <- result_markdown self result ;;
    pages <- lift (py_get result "pages" (PInt 0)) ;;
    processing_time <- lift (py_get result "processing_time" PNone) ;;
    pure (markdown_content,
          PDict [("task_id", task_id);
                 ("pages", pages);
                 ("processing_time", processing_time)]).

End Client.

(** ** Outcomes of a run

    [returns t w w' r]: run from world [w], the coroutine [t] finishes in
    world [w'] with result [r]. *)

Definition returns {R : Type} (t : itree ioE R) (w w' : world) (r : R) : Prop :=
  run t w ≈ Ret (w', r).

(** A runner with fuel, to evaluate a coroutine in a concrete world. *)
Fixpoint burn {R : Type} (fuel : nat) (t : itree void1 R) : option R :=
  match fuel with
  | O => None
  | S fuel' =>
      match observe t with
      | RetF r => Some r
      | TauF t' => burn fuel' t'
      | VisF e _ => match e in void1 _ with end
      end
  end.

(** The world after an event. *)
Definition after {T : Type} (e : ioE T) (w : world) : world := fst (step e w).

(** The events a run from [w] to [w'] has added to the trace. *)
Definition events_since (w w' : world) : list event :=
  skipn (List.length (trace w)) (trace w').

(** The world after one status query. *)
Definition queried (endpoint : string) (w : world) : world :=
  after (Get endpoint) (after AcquireClient w).

(** The world after a turn of the polling loop that goes round: the clock
    is read, the status queried, and the poller sleeps. *)
Definition polled (endpoint : string) (poll_interval : Z) (w : world) : world :=
  after (Sleep poll_interval) (queried endpoint (after Time w)).






(** ** Result locators *)




(** The GET of [u] on a fresh connection is answered by the 2xx response [r]. *)
Definition fetched (w : world) (u : string) (r : response) : Prop :=
  outcome (on_fetch w u) = Responded r /\ is_success r = true.

(** The first name of the archive that ends in [.md]. *)
Definition first_md_name (zf : ZipFile) : option string :=
  find (fun name => endswith name ".md") (namelist zf).

(** The ways a download can fail. *)
Inductive fetch_fails (open_zip : bytes -> option ZipFile) (w : world) (u : string) : Prop :=
| transport_error (msg : string) :
    outcome (on_fetch w u) = NetError msg -> fetch_fails open_zip w u
| bad_status (r : response) :
    outcome (on_fetch w u) = Responded r -> is_success r = false ->
    fetch_fails open_zip w u
| corrupt_archive (r : response) :
    fetched w u r -> endswith u ".zip" = true ->
    open_zip (content r) = None -> fetch_fails open_zip w u
| unreadable_member (r : response) (zf : ZipFile) (name : string) :
    fetched w u r -> endswith u ".zip" = true ->
    open_zip (content r) = Some zf -> first_md_name zf = Some name ->
    read zf name = None -> fetch_fails open_zip w u
| undecodable_bytes (r : response) (zf : ZipFile) (name : string) (data : bytes) :
    fetched w u r -> endswith u ".zip" = true ->
    open_zip (content r) = Some zf -> first_md_name zf = Some name ->
    read zf name = Some data -> decode_utf8 data = None ->
    fetch_fails open_zip w u.

(** ** Errors, by the spec's names *)

(** [InputError]: no source was given, or the source file is missing. *)
Inductive InputError : exn -> Prop :=
| no_source :
    InputError (ValueError "必须提供 file_path 或 pdf_url")
| source_missing (file_path : string) :
    InputError (FileNotFoundError ("文件不存在: " ++ file_path)).

(** ** Scenarios: a client, service replies and worlds to run it in *)

Module Scenario.

Definition repr (v : pyval) : string := "<object>".

Definition error_text (r : response) : string :=
  "HTTP error " ++ string_of_Z (status_code r).

Definition client : MineruAPIClient :=
  {| api_key := "secret"; base_url := "https://mineru.net/api/v4"; timeout := 60 |}.

Definition task : pyval := PStr "t-1".

Definition endpoint : string := RESULT_ENDPOINT (py_str repr task).

(** A 200 response with a JSON body, a 200 response with raw bytes, and a
    connection that fails. *)
Definition ok (body : pyval) : http_reply :=
  {| latency := 0;
     outcome := Responded {| status_code := 200; content := [];
                             text := ""; json := inr body |} |}.

Definition raw (body : bytes) (shown : string) : response :=
  {| status_code := 200; content := body; text := shown;
     json := inl "not JSON" |}.

Definition unreachable : http_reply :=
  {| latency := 0; outcome := NetError "connection refused" |}.

(** The service's envelope around the data of a task. *)
Definition status (data : pyval) : http_reply :=
  ok (PDict [("code", PInt 0); ("data", data)]).

Definition in_state (s : string) : pyval := PDict [("state", PStr s)].

Definition failed_scan : pyval :=
  PDict [("state", PStr "failed"); ("err_msg", PStr "bad scan")].

Definition done_inline : pyval :=
  PDict [("state", PStr "done"); ("markdown", PStr "# Title"); ("pages", PInt 2)].

Definition no_files : string -> option fsnode := fun _ => None.

Definition paper : bytes := [x25; x50; x44; x46].

Definition one_paper : string -> option fsnode :=
  fun p => if (p =? "in/paper.pdf")%string then Some (RegularFile paper) else None.

(** Two archives, told apart by their first byte, and a plain document. *)
Definition hello_zip : ZipFile :=
  {| namelist := ["report.md"];
     read := fun name =>
       if (name =? "report.md")%string then Some (list_byte_of_string "Hello")
       else None |}.

Definition pictures_zip : ZipFile :=
  {| namelist := ["p1.png"; "p2.png"];
     read := fun _ => Some [] |}.

Definition open_zip (body : bytes) : option ZipFile :=
  match body with
  | [x48] => Some hello_zip
  | [x50] => Some pictures_zip
  | _ => None
  end.

Definition web (url : string) : http_reply :=
  if (url =? "https://cdn.test/hello.zip")%string then
    {| latency := 1; outcome := Responded (raw [x48] "") |}
  else if (url =? "https://cdn.test/pictures.zip")%string then
    {| latency := 1; outcome := Responded (raw [x50] "") |}
  else if (url =? "https://cdn.test/broken.zip")%string then
    {| latency := 1; outcome := Responded (raw [x00] "") |}
  else if (url =? "https://cdn.test/full.md")%string then
    {| latency := 1; outcome := Responded (raw [x23; x20; x41] "# A") |}
  else unreachable.

(** A world: files, the script of the status replies, the web. *)
Definition world_with (files : string -> option fsnode)
    (script : nat -> http_reply) (pages : string -> http_reply) : world :=
  {| clock := 0;
     fs := files;
     on_post := fun _ _ => status (PDict [("task_id", task)]);
     on_get := fun n _ => script n;
     gets_done := 0;
     on_fetch := pages;
     pooled := false;
     trace := [] |}.

(** The task never leaves [pending]. *)
Definition stuck : world :=
  world_with no_files (fun _ => status (in_state "pending")) web.

(** The first status query finds the task failed. *)
Definition failing : world :=
  world_with no_files (fun _ => status failed_scan) web.

(** Running, running, done. *)
Definition finishing : world :=
  world_with one_paper
    (fun n => if (n <? 2)%nat then status (in_state "running") else status done_inline)
    web.

(** Done at the first query. *)
Definition finished : world :=
  world_with one_paper (fun _ => status done_inline) web.

End Scenario.

(** ** What every finished run satisfies

    [ensures t w Q]: whenever the coroutine [t], run from [w], finishes, the
    world it leaves and its result satisfy [Q]. *)

Definition ensures {R : Type} (t : itree ioE R) (w : world)
    (Q : world -> R -> Prop) : Prop :=
  forall w' r, returns t w w' r -> Q w' r.

(** The events of [n] turns of the polling loop that go round. *)
Definition turns (endpoint : string) (poll_interval : Z) (n : nat) : list event :=
  List.concat (repeat [EvTime; EvAcquire; EvGet endpoint; EvSleep poll_interval] n).

(** ** Construction: [__init__] and the module-level helpers

    The environment variables are a function from names to values. *)

Definition DEFAULT_BASE_URL : string := "https://mineru.net/api/v4".

(** [os.getenv(name, default)]. *)
Definition getenv (env : string -> option string) (name default : string) : string :=
  match env name with
  | Some v => v
  | None => default
  end.

(** [a or b], for an [Optional[str]] and for a [str] on the left. *)
Definition opt_or (a : option string) (b : string) : string :=
  if truthy_opt a then from_opt a else b.

Definition str_or (a b : string) : string :=
  if (a =? "")%string then b else a.

Definition __init__ (env : string -> option string)
    (api_key base_url : option string) (timeout : Z) : MineruAPIClient :=
  {| api_key := opt_or api_key (getenv env "MINERU_API_KEY" "");
     base_url := str_or (opt_or base_url (getenv env "MINERU_BASE_URL" ""))
                        DEFAULT_BASE_URL;
     timeout := timeout |}.

(** [_get_headers]: the two headers, in the order of the dict. *)
Definition _get_headers (self : MineruAPIClient) : list (string * string) :=
  [("Authorization", "Bearer " ++ api_key self);
   ("Content-Type", "application/json")].

(** [get_mineru_client()] and [is_mineru_available()]: the defaults of
    [__init__]. *)
Definition get_mineru_client (env : string -> option string) : MineruAPIClient :=
  __init__ env None None 60.

Definition is_mineru_available (env : string -> option string) : bool :=
  is_available (__init__ env None None 60).

(** ** The pooled connection: [_get_client] and [close]

    The world of the coroutines keeps of the pooled connection only whether
    it was opened.  Here lines 81-95 are modelled on their own, with the
    identity of the connections: every [httpx.AsyncClient] the instance has
    made is numbered, [clients] holds the [is_closed] flag of each, and
    [_client] is the attribute of the instance. *)

Module Connection.

Record state : Type := {
  clients : list bool;
  _client : option nat
}.

(** [client.is_closed]. *)
Definition is_closed (st : state) (c : nat) : bool := nth c (clients st) true.

Fixpoint mark_closed (c : nat) (flags : list bool) : list bool :=
  match flags, c with
  | [], _ => []
  | _ :: rest, O => true :: rest
  | f :: rest, S c' => f :: mark_closed c' rest
  end.

(** [httpx.AsyncClient(...)]: a new, open connection becomes the attribute. *)
Definition make (st : state) : state * nat :=
  ({| clients := clients st ++ [false];
      _client := Some (List.length (clients st)) |},
   List.length (clients st)).

Definition _get_client (st : state) : state * nat :=
  match _client st with
  | None => make st
  | Some c => if is_closed st c then make st else (st, c)
  end.

Definition close (st : state) : state :=
  match _client st with
  | None => st
  | Some c =>
      if negb (is_closed st c) then
        {| clients := mark_closed c (clients st); _client := None |}
      else st
  end.

(** A new instance: [self._client = None], no connection made yet. *)
Definition fresh : state := {| clients := []; _client := None |}.

(** No connection is left open behind: every connection the instance has
    made, other than the one it holds, is closed. *)
Definition tidy (st : state) : Prop :=
  forall c, _client st <> Some c -> is_closed st c = true.

End Connection.

(** ** More cases to run the client in *)

Module Cases.

Definition env_with_key (name : string) : option string :=
  if (name =? "MINERU_API_KEY")%string then Some "secret" else None.

Definition env_empty (name : string) : option string := None.

Definition unconfigured : MineruAPIClient := __init__ env_empty None None 60.

(** The service as it answers a submission and the status queries. *)
Definition service (posted : http_reply) (script : nat -> http_reply) : world :=
  {| clock := 0;
     fs := Scenario.one_paper;
     on_post := fun _ _ => posted;
     on_get := fun n _ => script n;
     gets_done := 0;
     on_fetch := Scenario.web;
     pooled := false;
     trace := [] |}.

Definition status_503 : http_reply :=
  {| latency := 0;
     outcome := Responded {| status_code := 503; content := []; text := "";
                             json := inl "not JSON" |} |}.

Definition over_quota : http_reply :=
  Scenario.ok (PDict [("code", PInt 1001); ("msg", PStr "quota exceeded")]).

Definition accepted : http_reply := Scenario.status (PDict [("task_id", Scenario.task)]).


Definition no_task_id : http_reply := Scenario.status (PDict []).

Definition done_bare : pyval := PDict [("state", PStr "done")].

(** Worlds: the submission is refused, and the polling meets each fate. *)
Definition offline : world := service Scenario.unreachable (fun _ => Scenario.unreachable).
Definition refusing_503 : world := service status_503 (fun _ => Scenario.unreachable).
Definition forgetful : world := service no_task_id (fun _ => Scenario.unreachable).
Definition refusing_quota : world := service over_quota (fun _ => Scenario.unreachable).
Definition accepting : world := service accepted (fun _ => Scenario.status done_bare).

End Cases.

(** ** Outcomes of polling *)

(** How a turn of the polling loop, begun in [w], can end in [w1]: the wait
    is over; the query or its reply is refused; the task is done; or the
    poller has slept and the loop goes round. *)
Definition turn_outcome (endpoint : string)
    (poll_interval max_wait_time start_time : Z)
    (w w1 : world) (r : exn + option pyval) : Prop :=
  match r with
  | inl e =>
      (e = timeout_error max_wait_time /\
       max_wait_time < clock w1 - start_time /\
       trace w1 = (trace w ++ [EvTime])%list) \/
      ((exists msg, e = ValueError msg \/ e = AttributeError msg) /\
       trace w1 = (trace w ++ [EvTime; EvAcquire; EvGet endpoint])%list)
  | inr (Some data) =>
      py_get data "state" PNone = inr (PStr "done") /\
      trace w1 = (trace w ++ [EvTime; EvAcquire; EvGet endpoint])%list
  | inr None =>
      trace w1 = (trace w ++ [EvTime; EvAcquire; EvGet endpoint;
                              EvSleep poll_interval])%list
  end.

(** How [wait_for_result], begun in [w], can end in [w']: after the first
    reading of the clock and [n] turns that went round, a last turn ends the
    wait. *)
Definition wait_outcome (endpoint : string) (poll_interval max_wait_time : Z)
    (w w' : world) (r : exn + pyval) : Prop :=
  exists n,
    match r with
    | inl e =>
        (e = timeout_error max_wait_time /\
         max_wait_time < clock w' - clock w /\
         trace w' = (trace w ++ EvTime :: turns endpoint poll_interval n
                             ++ [EvTime])%list) \/
        ((exists msg, e = ValueError msg \/ e = AttributeError msg) /\
         trace w' = (trace w ++ EvTime :: turns endpoint poll_interval n
                             ++ [EvTime; EvAcquire; EvGet endpoint])%list)
    | inr data =>
        py_get data "state" PNone = inr (PStr "done") /\
        trace w' = (trace w ++ EvTime :: turns endpoint poll_interval n
                            ++ [EvTime; EvAcquire; EvGet endpoint])%list
    end.

(** * Properties *)

(** ** The pure functions on examples *)

Example path_name_nested : path_name "/tmp/in/paper.pdf" = "paper.pdf".
Proof. reflexivity. Qed.

Example path_name_trailing : path_name "docs/scan.pdf/" = "scan.pdf".
Proof. reflexivity. Qed.

Example endswith_zip : endswith "https://cdn/x/full.zip" ".zip" = true.
Proof. reflexivity. Qed.

Example string_of_Z_5 : string_of_Z 5 = "5".
Proof. reflexivity. Qed.

Example b64encode_Man : b64encode [x4d; x61; x6e] = "TWFu".
Proof. reflexivity. Qed.

Example b64encode_Ma : b64encode [x4d; x61] = "TWE=".
Proof. reflexivity. Qed.

Example b64encode_M : b64encode [x4d] = "TQ==".
Proof. reflexivity. Qed.

Example b64decode_TWE : b64decode "TWE=" = Some [x4d; x61].
Proof. reflexivity. Qed.

Example decode_Hello :
  decode_utf8 (list_byte_of_string "Hello") = Some "Hello".
Proof. reflexivity. Qed.

Example decode_truncated : decode_utf8 [xe4; xbd] = None.
Proof. reflexivity. Qed.

Example decode_overlong : decode_utf8 [xc0; x80] = None.
Proof. reflexivity. Qed.

Example path_name_dots : path_name "a/./b/." = "b".
Proof. reflexivity. Qed.

Example path_name_root : path_name "/" = "".
Proof. reflexivity. Qed.

Example endswith_query : endswith "https://cdn/x/full.zip?sig=1" ".zip" = false.
Proof. reflexivity. Qed.

(** ** Suffixes *)

Lemma string_app_assoc (s t u : string) :
  ((s ++ t) ++ u = s ++ (t ++ u))%string.
Proof. induction s as [|c s IH]; [reflexivity|]. cbn. rewrite IH. reflexivity. Qed.

Lemma rev_string_acc_app (s t acc : string) :
  rev_string_acc (s ++ t) acc = rev_string_acc t (rev_string_acc s acc).
Proof.
  revert acc. induction s as [|c s IH]; intros acc; [reflexivity|].
  cbn. apply IH.
Qed.

Lemma rev_string_acc_nil (s acc : string) :
  rev_string_acc s acc = (rev_string_acc s "" ++ acc)%string.
Proof.
  revert acc. induction s as [|c s IH]; intros acc; [reflexivity|].
  cbn. rewrite (IH (String c acc)), (IH (String c "")).
  rewrite string_app_assoc. reflexivity.
Qed.

Lemma rev_string_involutive (s : string) : rev_string (rev_string s) = s.
Proof.
  unfold rev_string. induction s as [|c s IH]; [reflexivity|].
  cbn. rewrite (rev_string_acc_nil s (String c "")), rev_string_acc_app, IH.
  reflexivity.
Qed.

Lemma prefix_app (p s : string) :
  prefix p s = true <-> exists rest, s = (p ++ rest)%string.
Proof.
  revert s. induction p as [|c p IH]; intros s.
  - split; [intros _; exists s; reflexivity | intros _; destruct s; reflexivity].
  - destruct s as [|d s]; cbn.
    + split; [discriminate | intros [rest H]; discriminate].
    + destruct (ascii_dec c d) as [->|Hne].
      * rewrite IH. split; intros [rest H]; exists rest; congruence.
      * split; [discriminate | intros [rest H]; congruence].
Qed.

(** [endswith] is the test of Python's [str.endswith]: the string is some
    text followed by the suffix. *)
Lemma endswith_spec (s suffix : string) :
  endswith s suffix = true <-> exists front, s = (front ++ suffix)%string.
Proof.
  unfold endswith. rewrite prefix_app. split.
  - intros [rest H]. exists (rev_string rest).
    rewrite <- (rev_string_involutive s), H.
    unfold rev_string at 1. rewrite rev_string_acc_app.
    fold (rev_string (rev_string suffix)). rewrite rev_string_involutive.
    apply rev_string_acc_nil.
  - intros [front ->]. exists (rev_string front).
    unfold rev_string at 1. rewrite rev_string_acc_app.
    apply rev_string_acc_nil.
Qed.

(** Decoding keeps the bytes: the text decoded is the bytes given. *)
Lemma decode_utf8_bytes (bs : bytes) (s : string) :
  decode_utf8 bs = Some s -> list_byte_of_string s = bs.
Proof.
  unfold decode_utf8. destruct (utf8_run U0 bs) as [[]|]; try discriminate.
  intros H. injection H as <-. apply list_byte_of_string_of_list_byte.
Qed.

(** ** Running coroutines

    The steps every proof about the client is made of. *)

Lemma burn_sound {R : Type} (fuel : nat) (t : itree void1 R) (r : R) :
  burn fuel t = Some r -> t ≈ Ret r.
Proof.
  revert t. induction fuel as [|fuel IH]; intros t H; [discriminate|].
  cbn in H. rewrite (itree_eta t).
  destruct (observe t) as [r'|t'|X e k].
  - injection H as ->. reflexivity.
  - rewrite tau_eutt. apply IH, H.
  - destruct e.
Qed.

Lemma returns_burn {R : Type} (fuel : nat) (t : itree ioE R) (w w' : world) (r : R) :
  burn fuel (run t w) = Some (w', r) -> returns t w w' r.
Proof. apply burn_sound. Qed.

Lemma returns_det {R : Type} (t : itree ioE R) (w w1 w2 : world) (r1 r2 : R) :
  returns t w w1 r1 -> returns t w w2 r2 -> w1 = w2 /\ r1 = r2.
Proof.
  unfold returns. intros H1 H2. rewrite H1 in H2.
  apply eutt_inv_Ret in H2. injection H2 as -> ->. split; reflexivity.
Qed.

Lemma returns_eutt {R : Type} (t t' : itree ioE R) (w w' : world) (r : R) :
  t ≈ t' -> returns t' w w' r -> returns t w w' r.
Proof. unfold returns, run. intros E H. rewrite E. exact H. Qed.

Lemma returns_ret {R : Type} (r : R) (w : world) : returns (Ret r) w w r.
Proof. unfold returns, run. rewrite interp_state_ret. reflexivity. Qed.

Lemma returns_trigger {T : Type} (e : ioE T) (w : world) :
  returns (ITree.trigger e) w (fst (step e w)) (snd (step e w)).
Proof.
  unfold returns, run. rewrite interp_state_trigger. unfold handle.
  destruct (step e w). reflexivity.
Qed.

Lemma run_bind {A B : Type} (t : itree ioE A) (k : A -> itree ioE B)
    (w w1 : world) (a : A) :
  returns t w w1 a -> run (ITree.bind t k) w ≈ run (k a) w1.
Proof.
  unfold returns, run. intros H.
  rewrite interp_state_bind, H, bind_ret_l. reflexivity.
Qed.

Lemma returns_bind {A B : Type} (t : itree ioE A) (k : A -> itree ioE B)
    (w w1 w2 : world) (a : A) (b : B) :
  returns t w w1 a -> returns (k a) w1 w2 b -> returns (ITree.bind t k) w w2 b.
Proof.
  intros H1 H2. unfold returns. rewrite (run_bind _ _ _ _ _ H1). exact H2.
Qed.

Lemma returns_pure {R : Type} (r : R) (w : world) : returns (pure r) w w (inr r).
Proof. apply returns_ret. Qed.

Lemma returns_raise {R : Type} (e : exn) (w : world) :
  returns (@raise R e) w w (inl e).
Proof. apply returns_ret. Qed.

Lemma returns_lift {R : Type} (r : exn + R) (w : world) : returns (lift r) w w r.
Proof. apply returns_ret. Qed.

Lemma returns_perform {T : Type} (e : ioE T) (w : world) :
  returns (perform e) w (fst (step e w)) (inr (snd (step e w))).
Proof.
  unfold perform. eapply returns_bind; [apply returns_trigger | apply returns_ret].
Qed.

(** [m] returns [a]: the rest runs from where [m] left the world. *)
Lemma run_bind_ok {A B : Type} (m : py A) (k : A -> py B) (w w1 : world) (a : A) :
  returns m w w1 (inr a) -> run (bind_py m k) w ≈ run (k a) w1.
Proof. intros H. unfold bind_py. rewrite (run_bind _ _ _ _ _ H). reflexivity. Qed.

Lemma returns_bind_ok {A B : Type} (m : py A) (k : A -> py B)
    (w w1 w2 : world) (a : A) (r : exn + B) :
  returns m w w1 (inr a) -> returns (k a) w1 w2 r -> returns (bind_py m k) w w2 r.
Proof. intros H1 H2. unfold returns. rewrite (run_bind_ok _ _ _ _ _ H1). exact H2. Qed.

(** [m] raises: the rest is skipped. *)
Lemma returns_bind_exn {A B : Type} (m : py A) (k : A -> py B)
    (w w1 : world) (e : exn) :
  returns m w w1 (inl e) -> returns (bind_py m k) w w1 (inl e).
Proof.
  intros H. unfold bind_py. eapply returns_bind; [exact H | apply returns_ret].
Qed.

Lemma returns_try_ok {A : Type} (m : py A) (h : exn -> py A)
    (w w1 : world) (a : A) :
  returns m w w1 (inr a) -> returns (try_except m h) w w1 (inr a).
Proof.
  intros H. unfold try_except. eapply returns_bind; [exact H | apply returns_ret].
Qed.

Lemma returns_try_exn {A : Type} (m : py A) (h : exn -> py A)
    (w w1 w2 : world) (e : exn) (r : exn + A) :
  returns m w w1 (inl e) -> returns (h e) w1 w2 r ->
  returns (try_except m h) w w2 r.
Proof.
  intros H1 H2. unfold try_except. eapply returns_bind; [exact H1 | exact H2].
Qed.



Lemma returns_while_raise {R : Type} (body : py (option R)) (w w1 : world) (e : exn) :
  returns body w w1 (inl e) -> returns (while_true body) w w1 (inl e).
Proof.
  intros H. unfold returns, while_true. rewrite unfold_iter.
  rewrite (run_bind _ _ _ _ _ (returns_bind _ _ _ _ _ _ _ H (returns_ret _ _))).
  apply returns_ret.
Qed.


Lemma returns_bind_perform {T B : Type} (e : ioE T) (k : T -> py B)
    (w w2 : world) (r : exn + B) :
  returns (k (snd (step e w))) (fst (step e w)) w2 r ->
  returns (bind_py (perform e) k) w w2 r.
Proof. intros H. eapply returns_bind_ok; [apply returns_perform | exact H]. Qed.

Lemma returns_bind_lift {A B : Type} (x : exn + A) (a : A) (k : A -> py B)
    (w w2 : world) (r : exn + B) :
  x = inr a -> returns (k a) w w2 r -> returns (bind_py (lift x) k) w w2 r.
Proof. intros -> H. eapply returns_bind_ok; [apply returns_lift | exact H]. Qed.

Lemma returns_bind_lift_exn {A B : Type} (x : exn + A) (e : exn) (k : A -> py B)
    (w : world) :
  x = inl e -> returns (bind_py (lift x) k) w w (inl e).
Proof. intros ->. apply returns_bind_exn, returns_lift. Qed.

Ltac world_simpl :=
  cbn [step fst snd after log advance count_get open_pooled
       clock fs on_post on_get gets_done on_fetch pooled trace].

Tactic Notation "world_simpl" "in" hyp(H) :=
  cbn [step fst snd after log advance count_get open_pooled
       clock fs on_post on_get gets_done on_fetch pooled trace] in H.

Lemma events_since_app (w w' : world) (l : list event) :
  trace w' = (trace w ++ l)%list -> events_since w w' = l.
Proof.
  intros H. unfold events_since. rewrite H, skipn_app, skipn_all, Nat.sub_diag.
  reflexivity.
Qed.

Section Polling.

Variable py_repr : pyval -> string.
Variable http_error_text : response -> string.
Variable self : MineruAPIClient.
Variable task_id : pyval.

Local Abbreviation endpoint := (RESULT_ENDPOINT (py_str py_repr task_id)).

Lemma get_task_result_ok (w : world) (r : response) (result : pyval) :
  outcome (on_get w (gets_done w) endpoint) = Responded r ->
  is_success r = true ->
  json r = inr result ->
  returns (get_task_result py_repr http_error_text self task_id) w (queried endpoint w) (inr result).
Proof.
  intros Hout Hok Hjson. unfold get_task_result, _get_client.
  apply returns_bind_perform. apply returns_try_ok.
  unfold request. eapply returns_bind_ok.
  - apply returns_bind_perform. world_simpl. rewrite Hout. apply returns_pure.
  - eapply returns_bind_lift.
    + unfold raise_for_status. rewrite Hok. reflexivity.
    + unfold response_json. rewrite Hjson. apply returns_lift.
Qed.

Variables poll_interval max_wait_time start_time : Z.

Local Abbreviation poll_once' :=
  (poll_once py_repr http_error_text self task_id poll_interval max_wait_time start_time).
Local Abbreviation poll_loop' :=
  (poll_loop py_repr http_error_text self task_id poll_interval max_wait_time start_time).





Lemma poll_once_timeout (w : world) :
  max_wait_time < clock w - start_time ->
  returns poll_once' w (after Time w) (inl (timeout_error max_wait_time)).
Proof.
  intros Hlate. unfold poll_once. apply returns_bind_perform. world_simpl.
  rewrite (proj2 (Z.ltb_lt _ _) Hlate). apply returns_raise.
Qed.


End Polling.

Section PollingClaims.

Variable py_repr : pyval -> string.
Variable http_error_text : response -> string.
Variable self : MineruAPIClient.
Variable task_id : pyval.

Local Abbreviation endpoint := (RESULT_ENDPOINT (py_str py_repr task_id)).
Local Abbreviation queried' := (queried endpoint).
Local Abbreviation polled' := (polled endpoint).
Local Abbreviation wait_for_result' :=
  (wait_for_result py_repr http_error_text self task_id).






End PollingClaims.

(** ** Fetching the result *)

Lemma bind_lift_ok {A B : Type} (a : A) (k : A -> py B) :
  bind_py (lift (inr a)) k ≈ k a.
Proof. unfold bind_py, lift. rewrite bind_ret_l. reflexivity. Qed.

Section Fetching.

Variable http_error_text : response -> string.
Variable open_zip : bytes -> option ZipFile.
Variable self : MineruAPIClient.

Local Abbreviation download := (_download_markdown http_error_text open_zip self).
Local Abbreviation result_markdown' := (result_markdown http_error_text open_zip self).

(** The loop over the names stops at the first one that ends in [.md]. *)
Lemma first_md_find (zf : ZipFile) (names : list string) :
  first_md zf names =
  match find (fun name => endswith name ".md") names with
  | Some name =>
      Some match read zf name with
           | None => inl (OtherError ("cannot read " ++ name))
           | Some data =>
               match decode_utf8 data with
               | None => inl (OtherError "UnicodeDecodeError")
               | Some s => inr s
               end
           end
  | None => None
  end.
Proof.
  induction names as [|name rest IH]; [reflexivity|].
  cbn [first_md find]. destruct (endswith name ".md"); [reflexivity | exact IH].
Qed.

Lemma first_md_namelist (zf : ZipFile) :
  first_md zf (namelist zf) =
  match first_md_name zf with
  | Some name =>
      Some match read zf name with
           | None => inl (OtherError ("cannot read " ++ name))
           | Some data =>
               match decode_utf8 data with
               | None => inl (OtherError "UnicodeDecodeError")
               | Some s => inr s
               end
           end
  | None => None
  end.
Proof. apply first_md_find. Qed.

Lemma download_not_str (w : world) (url : pyval) :
  (forall u, url <> PStr u) ->
  returns (download url) w w (inr (PStr "")).
Proof.
  intros Hns. unfold _download_markdown.
  eapply returns_try_exn with (e := OtherError "TypeError: invalid type for url");
    [|apply returns_pure].
  destruct url; try apply returns_raise. exfalso. eapply Hns. reflexivity.
Qed.

Lemma download_net_error (w : world) (u msg : string) :
  outcome (on_fetch w u) = NetError msg ->
  returns (download (PStr u)) w (after (Fetch u) w) (inr (PStr "")).
Proof.
  intros Hout. unfold _download_markdown.
  eapply returns_try_exn; [|apply returns_pure].
  apply returns_bind_exn. unfold request. apply returns_bind_perform.
  world_simpl. rewrite Hout. apply returns_raise.
Qed.

Lemma request_fetch (w : world) (u : string) (r : response) :
  outcome (on_fetch w u) = Responded r ->
  returns (request (Fetch u)) w (after (Fetch u) w) (inr r).
Proof.
  intros Hout. unfold request. apply returns_bind_perform.
  world_simpl. rewrite Hout. apply returns_pure.
Qed.

Lemma download_bad_status (w : world) (u : string) (r : response) :
  outcome (on_fetch w u) = Responded r -> is_success r = false ->
  returns (download (PStr u)) w (after (Fetch u) w) (inr (PStr "")).
Proof.
  intros Hout Hbad. unfold _download_markdown.
  eapply returns_try_exn; [|apply returns_pure].
  eapply returns_bind_ok; [apply request_fetch, Hout|].
  apply returns_bind_lift_exn. unfold raise_for_status. rewrite Hbad. reflexivity.
Qed.

Lemma download_plain (w : world) (u : string) (r : response) :
  fetched w u r -> endswith u ".zip" = false ->
  returns (download (PStr u)) w (after (Fetch u) w) (inr (PStr (text r))).
Proof.
  intros [Hout Hok] Hext. unfold _download_markdown.
  apply returns_try_ok.
  eapply returns_bind_ok; [apply request_fetch, Hout|].
  eapply returns_bind_lift; [unfold raise_for_status; rewrite Hok; reflexivity|].
  rewrite Hext. apply returns_pure.
Qed.

Lemma download_zip (w : world) (u : string) (r : response) :
  fetched w u r -> endswith u ".zip" = true ->
  returns (download (PStr u)) w (after (Fetch u) w)
    (inr (PStr match unpack_markdown open_zip (content r) with
               | inr s => s
               | inl _ => ""
               end)).
Proof.
  intros [Hout Hok] Hext. unfold _download_markdown.
  destruct (unpack_markdown open_zip (content r)) as [e|s] eqn:Hun.
  - eapply returns_try_exn; [|apply returns_pure].
    eapply returns_bind_ok; [apply request_fetch, Hout|].
    eapply returns_bind_lift; [unfold raise_for_status; rewrite Hok; reflexivity|].
    rewrite Hext. apply returns_bind_lift_exn. exact Hun.
  - apply returns_try_ok.
    eapply returns_bind_ok; [apply request_fetch, Hout|].
    eapply returns_bind_lift; [unfold raise_for_status; rewrite Hok; reflexivity|].
    rewrite Hext. eapply returns_bind_lift; [exact Hun | apply returns_pure].
Qed.



Lemma unpack_fails (w : world) (u : string) (r : response) :
  fetch_fails open_zip w u -> fetched w u r -> endswith u ".zip" = true ->
  exists e, unpack_markdown open_zip (content r) = inl e.
Proof.
  intros Hfail [Hout Hok] Hext. unfold unpack_markdown.
  destruct Hfail as [msg H|r' H Hbad|r' [H _] _ Hopen|r' zf name [H _] _ Hopen Hfind Hread
                    |r' zf name data [H _] _ Hopen Hfind Hread Hdec];
    rewrite Hout in H; try discriminate; injection H as <-.
  - congruence.
  - rewrite Hopen. eauto.
  - rewrite Hopen, first_md_namelist, Hfind, Hread. eauto.
  - rewrite Hopen, first_md_namelist, Hfind, Hread, Hdec. eauto.
Qed.

(** A true URL value is downloaded; a false one leaves the inline field. *)
Lemma result_markdown_url (result md_url : pyval) :
  select_url result = inr md_url -> truthy md_url = true ->
  result_markdown' result ≈ download md_url.
Proof.
  intros Hsel Htrue. unfold result_markdown.
  rewrite Hsel, bind_lift_ok, Htrue. reflexivity.
Qed.

Lemma result_markdown_inline (result md_url : pyval) :
  select_url result = inr md_url -> truthy md_url = false ->
  result_markdown' result ≈ lift (py_get result "markdown" (PStr "")).
Proof.
  intros Hsel Hfalse. unfold result_markdown.
  rewrite Hsel, bind_lift_ok, Hfalse. reflexivity.
Qed.


End Fetching.

Section FetchingClaims.

Variable http_error_text : response -> string.
Variable open_zip : bytes -> option ZipFile.
Variable self : MineruAPIClient.

Local Abbreviation download := (_download_markdown http_error_text open_zip self).
Local Abbreviation result_markdown' := (result_markdown http_error_text open_zip self).


(** C2: [_download_markdown] never raises.  Whatever the URL value and
    whatever the network answers, it returns a string, and the empty string
    whenever the download fails: the transport raises, the status is not
    2xx, the archive cannot be opened, its member cannot be read, the bytes
    are not UTF-8, or the URL value is not a string at all.  So the step from
    a result dictionary to its content returns a value too. *)
Theorem download_never_raises (w : world) (url : pyval) :
  (exists s,
     returns (download url) w
       (match url with PStr u => after (Fetch u) w | _ => w end) (inr (PStr s)) /\
     (forall u, url = PStr u -> fetch_fails open_zip w u -> s = "") /\
     ((forall u, url <> PStr u) -> s = "")) /\
  (forall d, exists w' v, returns (result_markdown' (PDict d)) w w' (inr v)).
Proof.
  assert (Hdl : forall url, exists s,
     returns (download url) w
       (match url with PStr u => after (Fetch u) w | _ => w end) (inr (PStr s)) /\
     (forall u, url = PStr u -> fetch_fails open_zip w u -> s = "") /\
     ((forall u, url <> PStr u) -> s = "")).
  { clear url. intros url.
    destruct url as [| | | |u| |];
      try (exists ""; split;
           [apply download_not_str; intros u; discriminate | split; reflexivity]).
    assert (Hstr : (forall u', PStr u <> PStr u') -> forall s : string, s = "").
    { intros Hns. exfalso. apply (Hns u). reflexivity. }
    destruct (outcome (on_fetch w u)) as [msg|r] eqn:Hout.
    { exists "". split; [eapply download_net_error; exact Hout | split; reflexivity]. }
    destruct (is_success r) eqn:Hok.
    2:{ exists "".
        split; [eapply download_bad_status; eassumption | split; reflexivity]. }
    destruct (endswith u ".zip") eqn:Hext.
    - eexists. split; [apply download_zip; [split; eassumption | exact Hext]|].
      split; [|intros Hns; apply Hstr, Hns].
      intros u' Hu Hfail. injection Hu as <-.
      destruct (unpack_fails open_zip w u r Hfail (conj Hout Hok) Hext) as [e ->].
      reflexivity.
    - eexists. split; [apply download_plain; [split; eassumption | exact Hext]|].
      split; [|intros Hns; apply Hstr, Hns].
      intros u' Hu Hfail. injection Hu as <-.
      destruct Hfail as [msg H|r' H Hbad|r' _ Hz|r' zf name _ Hz|r' zf name data _ Hz];
        congruence. }
  split; [apply Hdl|].
  intros d.
  destruct (select_url (PDict d)) as [e|md_url] eqn:Hsel.
  { unfold select_url in Hsel. cbn in Hsel.
    destruct (truthy _) in Hsel; discriminate. }
  destruct (truthy md_url) eqn:Htrue.
  - destruct (Hdl md_url) as (s & Hret & _ & _).
    eexists _, _. eapply returns_eutt; [eapply result_markdown_url; eassumption|].
    exact Hret.
  - eexists _, _. eapply returns_eutt; [eapply result_markdown_inline; eassumption|].
    cbn. apply returns_lift.
Qed.


End FetchingClaims.

(** ** Base64 round trip *)

Lemma all_below_spec (k : nat) (p : N -> bool) :
  all_below k p = true -> forall n, (n < N.of_nat k)%N -> p n = true.
Proof.
  induction k as [|k IH]; intros Hall n Hn; [lia|].
  cbn [all_below] in Hall. apply andb_prop in Hall as [Hk Hrest].
  destruct (N.eq_dec n (N.of_nat k)) as [->|Hne]; [exact Hk|].
  apply IH; [exact Hrest | lia].
Qed.

(** Each of the 64 digits is read back as itself, and none is the pad. *)
Lemma b64_digit (n : N) :
  (n < 64)%N ->
  b64_index (b64_char n) = Some n /\ Ascii.eqb (b64_char n) b64_pad = false.
Proof.
  intros Hn.
  pose (p := fun n => match b64_index (b64_char n) with
                      | Some m => (m =? n)%N
                      | None => false
                      end && negb (Ascii.eqb (b64_char n) b64_pad)).
  assert (Hp : p n = true).
  { apply (all_below_spec 64 p); [vm_compute; reflexivity | exact Hn]. }
  unfold p in Hp. apply andb_prop in Hp as [Hidx Hpad].
  split.
  - destruct (b64_index (b64_char n)) as [m|]; [|discriminate].
    apply N.eqb_eq in Hidx. congruence.
  - apply negb_true_iff, Hpad.
Qed.

Lemma b64_index_char (n : N) : (n < 64)%N -> b64_index (b64_char n) = Some n.
Proof. apply b64_digit. Qed.

Lemma b64_char_not_pad (n : N) :
  (n < 64)%N -> Ascii.eqb (b64_char n) b64_pad = false.
Proof. apply b64_digit. Qed.

Lemma byte_of_N_eq (n : N) (b : byte) : n = Byte.to_N b -> byte_of_N n = b.
Proof. intros ->. unfold byte_of_N. rewrite Byte.of_to_N. reflexivity. Qed.

Lemma list_ind3 {A : Type} (P : list A -> Prop) :
  P [] -> (forall a, P [a]) -> (forall a b, P [a; b]) ->
  (forall a b c l, P l -> P (a :: b :: c :: l)) ->
  forall l, P l.
Proof.
  intros H0 H1 H2 H3.
  assert (H : forall l, P l /\ (forall a, P (a :: l)) /\ (forall a b, P (a :: b :: l))).
  { induction l as [|c l (IH0 & IH1 & IH2)].
    - auto.
    - split; [apply IH1 | split; [intros a; apply IH2 | intros a b; apply H3, IH0]]. }
  intros l. apply H.
Qed.

(** Arithmetic on the digits: division and remainder by constants. *)
Ltac digits_arith := zify; Z.to_euclidean_division_equations; lia.

Ltac b64_digits :=
  repeat match goal with
  | |- context [b64_index (b64_char ?n)] =>
      rewrite (b64_index_char n) by digits_arith
  | |- context [Ascii.eqb (b64_char ?n) b64_pad] =>
      rewrite (b64_char_not_pad n) by digits_arith
  end.

Lemma b64decode_b64encode (bs : bytes) : b64decode (b64encode bs) = Some bs.
Proof.
  induction bs as [|a|a b|a b c rest IH] using list_ind3.
  - reflexivity.
  - pose proof (Byte.to_N_bounded a) as Ha.
    cbn [b64encode b64decode]. b64_digits.
    rewrite Ascii.eqb_refl. cbn [andb String.eqb].
    do 2 f_equal. apply byte_of_N_eq. digits_arith.
  - pose proof (Byte.to_N_bounded a) as Ha. pose proof (Byte.to_N_bounded b) as Hb.
    cbn [b64encode b64decode]. b64_digits.
    rewrite Ascii.eqb_refl. cbn [String.eqb].
    repeat (f_equal; try (apply byte_of_N_eq; digits_arith)).
  - pose proof (Byte.to_N_bounded a) as Ha. pose proof (Byte.to_N_bounded b) as Hb.
    pose proof (Byte.to_N_bounded c) as Hc.
    cbn [b64encode b64decode]. b64_digits. rewrite IH.
    repeat (f_equal; try (apply byte_of_N_eq; digits_arith)).
Qed.

(** ** Submission *)

Lemma ex_bind_lift {A B : Type} (x : exn + A) (k : A -> py B) (w : world) :
  (forall a, x = inr a -> exists r, returns (k a) w w r) ->
  exists r, returns (bind_py (lift x) k) w w r.
Proof.
  intros H. destruct x as [e|a].
  - eexists. apply returns_bind_lift_exn. reflexivity.
  - destruct (H a eq_refl) as [r Hr]. exists r.
    eapply returns_bind_lift; [reflexivity | exact Hr].
Qed.

Section Submission.

Variable py_repr : pyval -> string.
Variable http_error_text : response -> string.
Variable self : MineruAPIClient.

(** With a key configured, [_create_task] sends exactly one POST and then
    returns or raises without touching the world again. *)
Lemma create_task_posts (w : world) (payload : pyval) :
  is_available self = true ->
  exists r,
    returns (_create_task py_repr http_error_text self payload) w
      (after (Post TASK_ENDPOINT payload) (after AcquireClient w)) r.
Proof.
  intros Hkey. unfold _create_task, _get_client. rewrite Hkey. cbn [negb].
  set (w1 := after (Post TASK_ENDPOINT payload) (after AcquireClient w)).
  assert (Hhandler : forall e, exists r,
    returns (match e with
             | HTTPStatusError status _ =>
                 raise (ValueError ("MinerU API 请求失败: HTTP " ++ string_of_Z status))
             | _ => @raise pyval (ValueError ("MinerU API 调用失败: " ++ exn_str e))
             end) w1 w1 r).
  { intros e. destruct e; eexists; apply returns_raise. }
  match goal with
  | |- exists r, returns (bind_py _ (fun _ => try_except ?body ?h)) _ _ r =>
      assert (Hbody : exists r, returns body (after AcquireClient w) w1 r)
  end.
  { destruct (outcome (on_post (after AcquireClient w) TASK_ENDPOINT payload))
      as [msg|resp] eqn:Hout.
    - eexists. apply returns_bind_exn. unfold request. apply returns_bind_perform.
      world_simpl. world_simpl in Hout. rewrite Hout. apply returns_raise.
    - assert (Hreq : returns (request (Post TASK_ENDPOINT payload))
                       (after AcquireClient w) w1 (inr resp)).
      { unfold request. apply returns_bind_perform. world_simpl.
        world_simpl in Hout. rewrite Hout. apply returns_pure. }
      assert (Htail : forall t : response -> py pyval,
                (exists r, returns (t resp) w1 w1 r) ->
                exists r, returns (bind_py (request (Post TASK_ENDPOINT payload)) t)
                            (after AcquireClient w) w1 r).
      { intros t [r Hr]. exists r. eapply returns_bind_ok; [exact Hreq | exact Hr]. }
      apply Htail.
      apply ex_bind_lift. intros _ _.
      apply ex_bind_lift. intros result _.
      apply ex_bind_lift. intros code _.
      destruct (py_eq_int code 0); cbn [negb].
      + apply ex_bind_lift. intros data _.
        apply ex_bind_lift. intros task_id _.
        destruct (truthy task_id); cbn [negb]; eexists;
          [apply returns_pure | apply returns_raise].
      + apply ex_bind_lift. intros error_msg _. eexists. apply returns_raise. }
  destruct Hbody as [[e|task_id] Hbody].
  - destruct (Hhandler e) as [r Hr]. exists r.
    apply returns_bind_perform. eapply returns_try_exn; [exact Hbody | exact Hr].
  - exists (inr task_id). apply returns_bind_perform. apply returns_try_ok. exact Hbody.
Qed.

(** C7: the payload of a file submission.  For a file that is there, with
    a key configured, the client checks the path, reads the file and POSTs
    one payload to the task endpoint; its [file] field is base64 text that
    decodes to exactly the bytes read, and with it go the file name, the
    three flags and the language code. *)
Theorem file_submission_carries_content
    (w : world) (file_path : string) (data : bytes)
    (enable_ocr enable_formula enable_table : bool) (language : string) :
  fs w file_path = Some (RegularFile data) ->
  is_available self = true ->
  let payload := file_payload data (path_name file_path)
                   enable_ocr enable_formula enable_table language in
  let w' := after (Post TASK_ENDPOINT payload) (after AcquireClient
              (after (ReadFile file_path) (after (PathExists file_path) w))) in
  (exists r,
     returns (create_task_from_file py_repr http_error_text self file_path
                enable_ocr enable_formula enable_table language) w w' r) /\
  trace w' = (trace w ++ [EvExists file_path; EvRead file_path; EvAcquire;
                          EvPost TASK_ENDPOINT payload])%list /\
  (exists file,
     py_get payload "file" PNone = inr (PStr file) /\ b64decode file = Some data) /\
  py_get payload "file_name" PNone = inr (PStr (path_name file_path)) /\
  py_get payload "is_ocr" PNone = inr (PBool enable_ocr) /\
  py_get payload "enable_formula" PNone = inr (PBool enable_formula) /\
  py_get payload "enable_table" PNone = inr (PBool enable_table) /\
  py_get payload "language" PNone = inr (PStr language).
Proof.
  intros Hfile Hkey payload w'. split; [|split; [|split]].
  - destruct (create_task_posts
                (after (ReadFile file_path) (after (PathExists file_path) w))
                payload Hkey) as [r Hr].
    exists r. unfold create_task_from_file.
    apply returns_bind_perform. world_simpl. rewrite Hfile. cbn [negb].
    apply returns_bind_perform. world_simpl.
    eapply returns_bind_lift; [unfold read_file; world_simpl; rewrite Hfile; reflexivity|].
    exact Hr.
  - subst w'. world_simpl. rewrite <- !app_assoc. reflexivity.
  - exists (b64encode data). split; [reflexivity | apply b64decode_b64encode].
  - repeat split; reflexivity.
Qed.

End Submission.

Section Extraction.

Variable py_repr : pyval -> string.
Variable http_error_text : response -> string.
Variable open_zip : bytes -> option ZipFile.
Variable self : MineruAPIClient.

Local Abbreviation extract_markdown' :=
  (extract_markdown py_repr http_error_text open_zip self).


(** C9, as the client has it: a call with both a file path and a URL is
    not rejected.  The file path is tested first and the URL is never looked
    at, so the call is the very coroutine of the call with the file path
    alone. *)
Theorem both_sources_file_takes_precedence
    (p u : string) (enable_ocr enable_formula enable_table : bool) (language : string) :
  p <> "" ->
  extract_markdown py_repr http_error_text open_zip self
    (Some p) (Some u) enable_ocr enable_formula enable_table language
  = extract_markdown py_repr http_error_text open_zip self
      (Some p) None enable_ocr enable_formula enable_table language.
Proof.
  intros Hne. unfold extract_markdown.
  assert (Htrue : truthy_opt (Some p) = true).
  { cbn. destruct (String.eqb_spec p ""); [contradiction | reflexivity]. }
  rewrite Htrue. reflexivity.
Qed.

End Extraction.

(** ** The theorems at work in the scenarios *)







Lemma download_never_raises_witness :
  exists s,
    returns (_download_markdown Scenario.error_text Scenario.open_zip Scenario.client
               (PStr "https://cdn.test/broken.zip"))
      Scenario.finished (after (Fetch "https://cdn.test/broken.zip") Scenario.finished)
      (inr (PStr s)) /\
    s = "".
Proof.
  destruct (download_never_raises Scenario.error_text Scenario.open_zip
              Scenario.client Scenario.finished (PStr "https://cdn.test/broken.zip"))
    as ((s & Hret & Hempty & _) & _).
  exists s. split; [exact Hret|].
  apply (Hempty "https://cdn.test/broken.zip" eq_refl).
  apply corrupt_archive with (r := Scenario.raw [x00] "").
  - split; reflexivity.
  - reflexivity.
  - reflexivity.
Defined.


Lemma file_submission_witness :
  exists r,
    returns (create_task_from_file Scenario.repr Scenario.error_text Scenario.client
               "in/paper.pdf" true true false "en")
      Scenario.finished
      (after (Post TASK_ENDPOINT
                (file_payload Scenario.paper "paper.pdf" true true false "en"))
         (after AcquireClient (after (ReadFile "in/paper.pdf")
            (after (PathExists "in/paper.pdf") Scenario.finished))))
      r.
Proof.
  apply (file_submission_carries_content Scenario.repr Scenario.error_text
           Scenario.client Scenario.finished "in/paper.pdf" Scenario.paper
           true true false "en").
  - reflexivity.
  - reflexivity.
Defined.


Lemma both_sources_witness :
  extract_markdown Scenario.repr Scenario.error_text Scenario.open_zip Scenario.client
    (Some "in/paper.pdf") (Some "https://host.test/paper.pdf") true true true "ch"
  = extract_markdown Scenario.repr Scenario.error_text Scenario.open_zip Scenario.client
      (Some "in/paper.pdf") None true true true "ch".
Proof.
  apply (both_sources_file_takes_precedence Scenario.repr Scenario.error_text
           Scenario.open_zip Scenario.client "in/paper.pdf"
           "https://host.test/paper.pdf" true true true "ch").
  discriminate.
Defined.

(** The whole pipeline, run with both sources given: the file is read and
    posted, the first status query finds the task done, and the inline
    content comes back. *)
Example both_sources_run :
  exists w',
    returns (extract_markdown Scenario.repr Scenario.error_text Scenario.open_zip
               Scenario.client (Some "in/paper.pdf")
               (Some "https://host.test/paper.pdf") true true true "ch")
      Scenario.finished w'
      (inr (PStr "# Title",
            PDict [("task_id", PStr "t-1"); ("pages", PInt 2);
                   ("processing_time", PNone)])) /\
    trace w' =
      [EvExists "in/paper.pdf"; EvRead "in/paper.pdf"; EvAcquire;
       EvPost "/extract/task"
         (PDict [("file", PStr "JVBERg=="); ("file_name", PStr "paper.pdf");
                 ("is_ocr", PBool true); ("enable_formula", PBool true);
                 ("enable_table", PBool true); ("language", PStr "ch")]);
       EvTime; EvTime; EvAcquire; EvGet "/extract/task/t-1"].
Proof.
  destruct (burn 60 (run (extract_markdown Scenario.repr Scenario.error_text
                            Scenario.open_zip Scenario.client (Some "in/paper.pdf")
                            (Some "https://host.test/paper.pdf") true true true "ch")
                         Scenario.finished))
    as [[w1 r]|] eqn:Hburn; [|vm_compute in Hburn; discriminate].
  exists w1. pose proof Hburn as Hval. vm_compute in Hval.
  injection Hval as Hw Hr. split.
  - rewrite Hr. apply (returns_burn 60), Hburn.
  - rewrite <- Hw. reflexivity.
Qed.

(** C9 as the claim has it fails: with an existing file and a URL both
    given, the call does not end in an input error; the file is submitted
    and the call returns the content. *)
Lemma both_sources_not_rejected :
  ~ (exists w' e,
       returns (extract_markdown Scenario.repr Scenario.error_text Scenario.open_zip
                  Scenario.client (Some "in/paper.pdf")
                  (Some "https://host.test/paper.pdf") true true true "ch")
         Scenario.finished w' (inl e) /\
       InputError e).
Proof.
  intros (w' & e & Hraise & _).
  destruct both_sources_run as (w1 & Hrun & _).
  destruct (returns_det _ _ _ _ _ _ Hraise Hrun) as [_ Heq]. discriminate.
Qed.

(** * Further properties of the client *)

(** ** Submission: how [_create_task] ends *)

Lemma request_post (w : world) (endpoint : string) (payload : pyval) (r : response) :
  outcome (on_post w endpoint payload) = Responded r ->
  returns (request (Post endpoint payload)) w (after (Post endpoint payload) w) (inr r).
Proof.
  intros Hout. unfold request. apply returns_bind_perform.
  world_simpl. rewrite Hout. apply returns_pure.
Qed.

Lemma request_post_error (w : world) (endpoint : string) (payload : pyval) (msg : string) :
  outcome (on_post w endpoint payload) = NetError msg ->
  returns (request (Post endpoint payload)) w (after (Post endpoint payload) w)
    (inl (OtherError msg)).
Proof.
  intros Hout. unfold request. apply returns_bind_perform.
  world_simpl. rewrite Hout. apply returns_raise.
Qed.

Lemma py_get_error (v : pyval) (k : string) (default : pyval) (e : exn) :
  py_get v k default = inl e ->
  e = AttributeError ("'" ++ py_type_name v ++ "' object has no attribute 'get'").
Proof. destruct v; cbn; intros H; try discriminate; injection H as <-; reflexivity. Qed.

Section SubmissionCases.

Variable py_repr : pyval -> string.
Variable http_error_text : response -> string.
Variable self : MineruAPIClient.

Ltac enter_create_task Hkey :=
  unfold _create_task, _get_client; rewrite Hkey; cbn [negb];
  apply returns_bind_perform.

(** X1: without a key nothing is attempted.  [_create_task] raises the
    configuration error and leaves the world as it was: no pooled connection
    is made and nothing is sent; so a submission by URL has no effect at
    all. *)
Theorem no_key_no_request (w : world) (payload : pyval) (pdf_url : string)
    (enable_ocr enable_formula enable_table : bool) (language : string) :
  is_available self = false ->
  returns (_create_task py_repr http_error_text self payload) w w
    (inl (ValueError "MinerU API Key 未配置，请设置环境变量 MINERU_API_KEY")) /\
  returns (create_task_from_url py_repr http_error_text self pdf_url
             enable_ocr enable_formula enable_table language) w w
    (inl (ValueError "MinerU API Key 未配置，请设置环境变量 MINERU_API_KEY")).
Proof.
  intros Hkey.
  assert (H : forall p, returns (_create_task py_repr http_error_text self p) w w
    (inl (ValueError "MinerU API Key 未配置，请设置环境变量 MINERU_API_KEY"))).
  { intros p. unfold _create_task. rewrite Hkey. cbn [negb]. apply returns_raise. }
  split; [apply H|]. unfold create_task_from_url. apply H.
Qed.

(** X2: failures of the transport and of the HTTP layer.  When the POST
    cannot be made, the error carries the transport's message; when the
    response is not 2xx, it carries the status code, and the body is not
    looked at.  Either way it is a [ValueError], raised after the one POST. *)
Theorem create_task_transport_failures (w : world) (payload : pyval) :
  is_available self = true ->
  (forall msg,
     outcome (on_post w TASK_ENDPOINT payload) = NetError msg ->
     returns (_create_task py_repr http_error_text self payload) w
       (after (Post TASK_ENDPOINT payload) (after AcquireClient w))
       (inl (ValueError ("MinerU API 调用失败: " ++ msg)))) /\
  (forall r,
     outcome (on_post w TASK_ENDPOINT payload) = Responded r ->
     is_success r = false ->
     returns (_create_task py_repr http_error_text self payload) w
       (after (Post TASK_ENDPOINT payload) (after AcquireClient w))
       (inl (ValueError ("MinerU API 请求失败: HTTP " ++ string_of_Z (status_code r))))).
Proof.
  intros Hkey. split.
  - intros msg Hout. enter_create_task Hkey.
    eapply returns_try_exn.
    { apply returns_bind_exn. apply request_post_error. exact Hout. }
    apply returns_raise.
  - intros r Hout Hbad. enter_create_task Hkey.
    eapply returns_try_exn.
    { eapply returns_bind_ok; [apply request_post; exact Hout|].
      apply returns_bind_lift_exn. unfold raise_for_status. rewrite Hbad. reflexivity. }
    apply returns_raise.
Qed.

(** X3: a refusal by the service is wrapped twice.  The [ValueError] raised
    inside the [try] for a non-zero [code], or for a missing task id, is
    caught by the [except Exception] of the same [try] and raised again
    behind the prefix of unexpected failures. *)
Theorem create_task_refusal_is_rewrapped
    (w : world) (payload : pyval) (r : response) (result : pyval) :
  is_available self = true ->
  outcome (on_post w TASK_ENDPOINT payload) = Responded r ->
  is_success r = true ->
  json r = inr result ->
  (forall code error_msg,
     py_get result "code" PNone = inr code -> py_eq_int code 0 = false ->
     py_get result "msg" (PStr "未知错误") = inr error_msg ->
     returns (_create_task py_repr http_error_text self payload) w
       (after (Post TASK_ENDPOINT payload) (after AcquireClient w))
       (inl (ValueError ("MinerU API 调用失败: "
                         ++ ("MinerU API 错误: " ++ py_str py_repr error_msg))))) /\
  (forall code data task_id,
     py_get result "code" PNone = inr code -> py_eq_int code 0 = true ->
     py_get result "data" (PDict []) = inr data ->
     py_get data "task_id" PNone = inr task_id -> truthy task_id = false ->
     returns (_create_task py_repr http_error_text self payload) w
       (after (Post TASK_ENDPOINT payload) (after AcquireClient w))
       (inl (ValueError ("MinerU API 调用失败: " ++ "MinerU API 返回无效的任务 ID")))).
Proof.
  intros Hkey Hout Hok Hjson. split.
  - intros code error_msg Hcode Hnz Hmsg. enter_create_task Hkey.
    eapply returns_try_exn.
    { eapply returns_bind_ok; [apply request_post; exact Hout|].
      eapply returns_bind_lift; [unfold raise_for_status; rewrite Hok; reflexivity|].
      eapply returns_bind_lift; [unfold response_json; rewrite Hjson; reflexivity|].
      eapply returns_bind_lift; [exact Hcode|]. rewrite Hnz. cbn [negb].
      eapply returns_bind_lift; [exact Hmsg | apply returns_raise]. }
    apply returns_raise.
  - intros code data task_id Hcode Hz Hdata Htask Hfalse. enter_create_task Hkey.
    eapply returns_try_exn.
    { eapply returns_bind_ok; [apply request_post; exact Hout|].
      eapply returns_bind_lift; [unfold raise_for_status; rewrite Hok; reflexivity|].
      eapply returns_bind_lift; [unfold response_json; rewrite Hjson; reflexivity|].
      eapply returns_bind_lift; [exact Hcode|]. rewrite Hz. cbn [negb].
      eapply returns_bind_lift; [exact Hdata|].
      eapply returns_bind_lift; [exact Htask|]. rewrite Hfalse. cbn [negb].
      apply returns_raise. }
    apply returns_raise.
Qed.

End SubmissionCases.

Lemma ex_bind_lift_post {A B : Type} (x : exn + A) (k : A -> py B) (w : world)
    (P : exn + B -> Prop) :
  (forall e, P (inl e)) ->
  (forall a, x = inr a -> exists r, returns (k a) w w r /\ P r) ->
  exists r, returns (bind_py (lift x) k) w w r /\ P r.
Proof.
  intros Hexn Hok. destruct x as [e|a].
  - exists (inl e). split; [apply returns_bind_lift_exn; reflexivity | apply Hexn].
  - destruct (Hok a eq_refl) as (r & Hr & HP). exists r.
    split; [eapply returns_bind_lift; [reflexivity | exact Hr] | exact HP].
Qed.

Lemma events_since_refl (w : world) : events_since w w = [].
Proof. unfold events_since. apply skipn_all. Qed.

Section SubmissionOutcome.

Variable py_repr : pyval -> string.
Variable http_error_text : response -> string.
Variable self : MineruAPIClient.

(** X4: whatever the service does, [_create_task] ends in one of two ways:
    it returns a task id that is true, or it raises a [ValueError]; no other
    exception leaves it.  On the way it sends at most one request, the POST
    of its payload. *)
Theorem create_task_returns_id_or_value_error (w : world) (payload : pyval) :
  exists w' r,
    returns (_create_task py_repr http_error_text self payload) w w' r /\
    ((exists task_id, r = inr task_id /\ truthy task_id = true) \/
     (exists msg, r = inl (ValueError msg))) /\
    (filter is_network (events_since w w') = [] \/
     filter is_network (events_since w w') = [EvPost TASK_ENDPOINT payload]).
Proof.
  destruct (is_available self) eqn:Hkey.
  2:{ exists w, (inl (ValueError "MinerU API Key 未配置，请设置环境变量 MINERU_API_KEY")).
      split; [|split].
      - unfold _create_task. rewrite Hkey. apply returns_raise.
      - right. eexists. reflexivity.
      - left. rewrite events_since_refl. reflexivity. }
  set (w1 := after AcquireClient w).
  set (w2 := after (Post TASK_ENDPOINT payload) w1).
  exists w2.
  assert (Hnet : filter is_network (events_since w w2) = [EvPost TASK_ENDPOINT payload]).
  { rewrite (events_since_app w w2 [EvAcquire; EvPost TASK_ENDPOINT payload]);
      [reflexivity|].
    subst w1 w2. world_simpl. rewrite <- !app_assoc. reflexivity. }
  pose (P := fun r : exn + pyval => forall t, r = inr t -> truthy t = true).
  unfold _create_task, _get_client. rewrite Hkey. cbn [negb].
  match goal with
  | |- exists r, returns (bind_py _ (fun _ => try_except ?body ?h)) _ _ r /\ _ =>
      assert (Hbody : exists rb, returns body w1 w2 rb /\ P rb)
  end.
  { destruct (outcome (on_post w1 TASK_ENDPOINT payload)) as [msg|resp] eqn:Hout.
    - exists (inl (OtherError msg)). split; [|intros t Ht; discriminate].
      apply returns_bind_exn. apply request_post_error. exact Hout.
    - assert (Htail : forall t : response -> py pyval,
                (exists r, returns (t resp) w2 w2 r /\ P r) ->
                exists r, returns (bind_py (request (Post TASK_ENDPOINT payload)) t)
                            w1 w2 r /\ P r).
      { intros t (r & Hr & HP). exists r. split; [|exact HP].
        eapply returns_bind_ok; [apply request_post; exact Hout | exact Hr]. }
      assert (Hexn : forall e : exn, P (inl e)) by (intros e t Ht; discriminate).
      apply Htail.
      apply ex_bind_lift_post; [exact Hexn|]. intros _ _.
      apply ex_bind_lift_post; [exact Hexn|]. intros result _.
      apply ex_bind_lift_post; [exact Hexn|]. intros code _.
      destruct (py_eq_int code 0); cbn [negb].
      + apply ex_bind_lift_post; [exact Hexn|]. intros data _.
        apply ex_bind_lift_post; [exact Hexn|]. intros task_id _.
        destruct (truthy task_id) eqn:Htrue; cbn [negb].
        * exists (inr task_id). split; [apply returns_pure|].
          intros t Ht. injection Ht as <-. exact Htrue.
        * eexists. split; [apply returns_raise | apply Hexn].
      + apply ex_bind_lift_post; [exact Hexn|]. intros error_msg _.
        eexists. split; [apply returns_raise | apply Hexn]. }
  destruct Hbody as ([e|task_id] & Hbody & HP).
  - assert (Hh : exists msg,
              returns (match e with
                       | HTTPStatusError status _ =>
                           raise (ValueError ("MinerU API 请求失败: HTTP "
                                              ++ string_of_Z status))
                       | _ => @raise pyval
                                (ValueError ("MinerU API 调用失败: " ++ exn_str e))
                       end) w2 w2 (inl (ValueError msg))).
    { destruct e; eexists; apply returns_raise. }
    destruct Hh as [msg Hh]. exists (inl (ValueError msg)).
    split; [|split; [right; eexists; reflexivity | right; exact Hnet]].
    apply returns_bind_perform. eapply returns_try_exn; [exact Hbody | exact Hh].
  - exists (inr task_id).
    split; [|split; [left; exists task_id; split; [reflexivity | apply HP; reflexivity]
                    | right; exact Hnet]].
    apply returns_bind_perform. apply returns_try_ok. exact Hbody.
Qed.

(** X5: a submission by URL.  With a key, and the service answering 2xx
    with [code] 0 and a task id that is true, [create_task_from_url] returns
    that id, of whatever type it is.  It makes the pooled connection and
    POSTs one payload, which holds the URL, the three flags and the language
    and no file; the file system is not touched. *)
Theorem url_submission_returns_task_id
    (w : world) (pdf_url : string)
    (enable_ocr enable_formula enable_table : bool) (language : string)
    (r : response) (result code data task_id : pyval) :
  let payload := PDict [("url", PStr pdf_url);
                        ("is_ocr", PBool enable_ocr);
                        ("enable_formula", PBool enable_formula);
                        ("enable_table", PBool enable_table);
                        ("language", PStr language)] in
  let w' := after (Post TASK_ENDPOINT payload) (after AcquireClient w) in
  is_available self = true ->
  outcome (on_post w TASK_ENDPOINT payload) = Responded r ->
  is_success r = true ->
  json r = inr result ->
  py_get result "code" PNone = inr code -> py_eq_int code 0 = true ->
  py_get result "data" (PDict []) = inr data ->
  py_get data "task_id" PNone = inr task_id -> truthy task_id = true ->
  returns (create_task_from_url py_repr http_error_text self pdf_url
             enable_ocr enable_formula enable_table language) w w' (inr task_id) /\
  events_since w w' = [EvAcquire; EvPost TASK_ENDPOINT payload] /\
  assoc_get "file" [("url", PStr pdf_url);
                    ("is_ocr", PBool enable_ocr);
                    ("enable_formula", PBool enable_formula);
                    ("enable_table", PBool enable_table);
                    ("language", PStr language)] = None.
Proof.
  intros payload w' Hkey Hout Hok Hjson Hcode Hz Hdata Htask Htrue.
  split; [|split; [|reflexivity]].
  - unfold create_task_from_url, _create_task, _get_client.
    rewrite Hkey. cbn [negb]. apply returns_bind_perform. apply returns_try_ok.
    eapply returns_bind_ok; [apply request_post; exact Hout|].
    eapply returns_bind_lift; [unfold raise_for_status; rewrite Hok; reflexivity|].
    eapply returns_bind_lift; [unfold response_json; rewrite Hjson; reflexivity|].
    eapply returns_bind_lift; [exact Hcode|]. rewrite Hz. cbn [negb].
    eapply returns_bind_lift; [exact Hdata|].
    eapply returns_bind_lift; [exact Htask|]. rewrite Htrue. cbn [negb].
    apply returns_pure.
  - apply events_since_app. subst w'. world_simpl. rewrite <- !app_assoc. reflexivity.
Qed.

End SubmissionOutcome.

(** ** Status queries: how [get_task_result] and a turn of the loop end *)

Section StatusQuery.

Variable py_repr : pyval -> string.
Variable http_error_text : response -> string.
Variable self : MineruAPIClient.
Variable task_id : pyval.

Local Abbreviation endpoint := (RESULT_ENDPOINT (py_str py_repr task_id)).
Local Abbreviation get_task_result' :=
  (get_task_result py_repr http_error_text self task_id).

Lemma request_get (w : world) (o : http_outcome) :
  outcome (on_get w (gets_done w) endpoint) = o ->
  returns (request (Get endpoint)) w (after (Get endpoint) w)
    (match o with
     | NetError msg => inl (OtherError msg)
     | Responded r => inr r
     end).
Proof.
  intros Hout. unfold request. apply returns_bind_perform.
  world_simpl. rewrite Hout. destruct o; [apply returns_raise | apply returns_pure].
Qed.

Lemma get_task_result_net_error (w : world) (msg : string) :
  outcome (on_get w (gets_done w) endpoint) = NetError msg ->
  returns get_task_result' w (queried endpoint w)
    (inl (ValueError ("获取任务结果失败: " ++ msg))).
Proof.
  intros Hout. unfold get_task_result, _get_client. apply returns_bind_perform.
  eapply returns_try_exn.
  { apply returns_bind_exn.
    apply (request_get (after AcquireClient w) (NetError msg)). exact Hout. }
  apply returns_raise.
Qed.

Lemma get_task_result_bad_status (w : world) (r : response) :
  outcome (on_get w (gets_done w) endpoint) = Responded r ->
  is_success r = false ->
  returns get_task_result' w (queried endpoint w)
    (inl (ValueError ("获取任务结果失败: " ++ http_error_text r))).
Proof.
  intros Hout Hbad. unfold get_task_result, _get_client. apply returns_bind_perform.
  eapply returns_try_exn.
  { eapply returns_bind_ok.
    - apply (request_get (after AcquireClient w) (Responded r)). exact Hout.
    - apply returns_bind_lift_exn. unfold raise_for_status. rewrite Hbad. reflexivity. }
  apply returns_raise.
Qed.

Lemma get_task_result_bad_json (w : world) (r : response) (msg : string) :
  outcome (on_get w (gets_done w) endpoint) = Responded r ->
  is_success r = true ->
  json r = inl msg ->
  returns get_task_result' w (queried endpoint w)
    (inl (ValueError ("获取任务结果失败: " ++ msg))).
Proof.
  intros Hout Hok Hjson. unfold get_task_result, _get_client.
  apply returns_bind_perform.
  eapply returns_try_exn.
  { eapply returns_bind_ok.
    - apply (request_get (after AcquireClient w) (Responded r)). exact Hout.
    - eapply returns_bind_lift; [unfold raise_for_status; rewrite Hok; reflexivity|].
      unfold response_json. rewrite Hjson. apply returns_lift. }
  apply returns_raise.
Qed.

(** Every status query ends: in the JSON value of a 2xx reply, or in a
    [ValueError]. *)
Lemma get_task_result_total (w : world) :
  exists r,
    returns get_task_result' w (queried endpoint w) r /\
    ((exists resp v,
        outcome (on_get w (gets_done w) endpoint) = Responded resp /\
        is_success resp = true /\ json resp = inr v /\ r = inr v) \/
     (exists msg, r = inl (ValueError ("获取任务结果失败: " ++ msg)))).
Proof.
  destruct (outcome (on_get w (gets_done w) endpoint)) as [msg|resp] eqn:Hout.
  { eexists. split; [apply get_task_result_net_error; exact Hout|]. right. eauto. }
  destruct (is_success resp) eqn:Hok.
  2:{ eexists. split; [apply get_task_result_bad_status; eassumption|]. right. eauto. }
  destruct (json resp) as [msg|v] eqn:Hjson.
  { eexists. split; [eapply get_task_result_bad_json; eassumption|]. right. eauto. }
  exists (inr v). split; [eapply get_task_result_ok; eassumption|].
  left. exists resp, v. auto.
Qed.

(** X6: a status query never lets a raw failure through.  It sends one GET,
    to the path that ends in the task id, and then either returns the JSON
    value of a 2xx reply or raises a [ValueError] that begins with the
    query-failed prefix: for a transport error, a status that is not 2xx,
    and a body that is not JSON alike. *)
Theorem status_query_value_or_value_error (w : world) :
  exists r,
    returns get_task_result' w (queried endpoint w) r /\
    events_since w (queried endpoint w)
      = [EvAcquire; EvGet ("/extract/task/" ++ py_str py_repr task_id)] /\
    match outcome (on_get w (gets_done w) endpoint) with
    | NetError msg => r = inl (ValueError ("获取任务结果失败: " ++ msg))
    | Responded resp =>
        if is_success resp then
          match json resp with
          | inr v => r = inr v
          | inl msg => r = inl (ValueError ("获取任务结果失败: " ++ msg))
          end
        else r = inl (ValueError ("获取任务结果失败: " ++ http_error_text resp))
    end.
Proof.
  assert (Hev : events_since w (queried endpoint w)
                = [EvAcquire; EvGet ("/extract/task/" ++ py_str py_repr task_id)]).
  { apply events_since_app. unfold queried. world_simpl.
    rewrite <- !app_assoc. reflexivity. }
  destruct (outcome (on_get w (gets_done w) endpoint)) as [msg|resp] eqn:Hout.
  { eexists. split; [apply get_task_result_net_error; exact Hout|].
    split; [exact Hev | reflexivity]. }
  destruct (is_success resp) eqn:Hok.
  2:{ eexists. split; [apply get_task_result_bad_status; eassumption|].
      split; [exact Hev | reflexivity]. }
  destruct (json resp) as [msg|v] eqn:Hjson.
  { eexists. split; [eapply get_task_result_bad_json; eassumption|].
    split; [exact Hev | reflexivity]. }
  exists (inr v). split; [eapply get_task_result_ok; eassumption|].
  split; [exact Hev | reflexivity].
Qed.

End StatusQuery.

(** ** Postconditions: what holds of every finished run *)

Lemma has_post_ret {X : Type} (v : X) (Q : X -> Prop) :
  Q v -> has_post (Ret v : itree void1 X) Q.
Proof. intros H. unfold has_post. apply eqit_Ret. exact H. Qed.

Lemma has_post_ret_inv {X : Type} (v : X) (Q : X -> Prop) :
  has_post (Ret v : itree void1 X) Q -> Q v.
Proof. unfold has_post. intros H. apply eqit_inv_Ret in H. exact H. Qed.

Lemma ensures_of_post {R : Type} (t : itree ioE R) (w : world)
    (Q : world -> R -> Prop) :
  has_post (run t w) (fun p => Q (fst p) (snd p)) -> ensures t w Q.
Proof.
  intros H w' r Hret. unfold returns in Hret. rewrite Hret in H.
  apply has_post_ret_inv in H. exact H.
Qed.

(** The rule of the loop: an invariant that every turn keeps when it goes
    round, and a postcondition that every turn establishes when it ends the
    loop. *)
Lemma ensures_while {R : Type} (body : py (option R)) (Inv : world -> Prop)
    (Q : world -> exn + R -> Prop) (w : world) :
  (forall w, Inv w -> exists w1 r,
      returns body w w1 r /\
      match r with
      | inl e => Q w1 (inl e)
      | inr None => Inv w1
      | inr (Some v) => Q w1 (inr v)
      end) ->
  Inv w ->
  ensures (while_true body) w Q.
Proof.
  intros Hbody Hinv. apply ensures_of_post. unfold run, while_true.
  rewrite eutt_eq_interp_state_iter.
  unfold Basics.iter, MonadIter_stateT0, Basics.iter, MonadIter_itree.
  apply has_post_iter_strong with (Inv := fun si => Inv (fst si)); [|exact Hinv].
  intros [s []] HI. cbn in HI |- *.
  destruct (Hbody s HI) as (w1 & r & Hret & Hpost).
  rewrite interp_state_bind. unfold returns, run in Hret. rewrite Hret, bind_ret_l.
  cbn. destruct r as [e|[v|]]; rewrite interp_state_ret, bind_ret_l; cbn;
    apply has_post_ret; exact Hpost.
Qed.

Lemma ensures_bind_perform {T B : Type} (e : ioE T) (k : T -> py B) (w : world)
    (Q : world -> exn + B -> Prop) :
  ensures (k (snd (step e w))) (fst (step e w)) Q ->
  ensures (bind_py (perform e) k) w Q.
Proof.
  intros H w' r Hret. apply H. unfold returns in *.
  rewrite <- (run_bind_ok _ _ _ _ _ (returns_perform e w)). exact Hret.
Qed.

Lemma turns_snoc (endpoint : string) (poll_interval : Z) (n : nat) :
  (turns endpoint poll_interval n
     ++ [EvTime; EvAcquire; EvGet endpoint; EvSleep poll_interval])%list
  = turns endpoint poll_interval (S n).
Proof.
  unfold turns. induction n as [|n IH]; [reflexivity|].
  cbn [repeat List.concat] in *. rewrite <- IH at 2. reflexivity.
Qed.

Lemma filter_turns (endpoint : string) (poll_interval : Z) (n : nat) :
  filter is_sleep (turns endpoint poll_interval n) = repeat (EvSleep poll_interval) n /\
  filter is_get (turns endpoint poll_interval n) = repeat (EvGet endpoint) n.
Proof.
  unfold turns. induction n as [|n [IHs IHg]]; [split; reflexivity|].
  cbn [repeat List.concat]. rewrite !filter_app, IHs, IHg. split; reflexivity.
Qed.

Ltac poll_tail :=
  repeat first
    [ apply returns_pure
    | apply returns_raise
    | apply returns_bind_lift_exn; eassumption
    | eapply returns_bind_lift; [eassumption|]
    | apply returns_bind_perform
    | match goal with
      | H : ?b = _ |- context [if negb ?b then _ else _] => rewrite H; cbn [negb]
      | H : ?b = _ |- context [if ?b then _ else _] => rewrite H
      end ].

Ltac trace_step :=
  unfold polled, queried; world_simpl; rewrite <- ?app_assoc; reflexivity.

Section PollingLaws.

Variable py_repr : pyval -> string.
Variable http_error_text : response -> string.
Variable self : MineruAPIClient.
Variable task_id : pyval.
Variables poll_interval max_wait_time : Z.

Local Abbreviation endpoint := (RESULT_ENDPOINT (py_str py_repr task_id)).

(** Every turn of the loop ends, in one of the ways of [turn_outcome]. *)
Lemma poll_once_total (start_time : Z) (w : world) :
  exists w1 r,
    returns (poll_once py_repr http_error_text self task_id
               poll_interval max_wait_time start_time) w w1 r /\
    turn_outcome endpoint poll_interval max_wait_time start_time w w1 r.
Proof.
  destruct (max_wait_time <? clock w - start_time) eqn:Hlate.
  { exists (after Time w), (inl (timeout_error max_wait_time)). split.
    - unfold poll_once. apply returns_bind_perform. world_simpl.
      rewrite Hlate. apply returns_raise.
    - left. split; [reflexivity|]. split; [|reflexivity].
      apply Z.ltb_lt in Hlate. world_simpl. exact Hlate. }
  destruct (get_task_result_total py_repr http_error_text self task_id (after Time w))
    as (r0 & Hget & Hclass).
  assert (Henter : forall w1 r,
            returns (bind_py (get_task_result py_repr http_error_text self task_id)
                       (fun result =>
                          code <- lift (py_get result "code" PNone) ;;
                          if negb (py_eq_int code 0) then
                            error_msg <- lift (py_get result "msg" (PStr "未知错误")) ;;
                            raise (ValueError ("MinerU API 错误: "
                                               ++ py_str py_repr error_msg))
                          else
                            data <- lift (py_get result "data" (PDict [])) ;;
                            status <- lift (py_get data "state" PNone) ;;
                            if py_eq_str status "done" then pure (Some data)
                            else if py_eq_str status "failed" then
                              error_msg <- lift (py_get data "err_msg"
                                                   (PStr "任务执行失败")) ;;
                              raise (ValueError ("MinerU 解析失败: "
                                                 ++ py_str py_repr error_msg))
                            else perform (Sleep poll_interval) ;; pure None))
                    (after Time w) w1 r ->
            returns (poll_once py_repr http_error_text self task_id
                       poll_interval max_wait_time start_time) w w1 r).
  { intros w1 r H. unfold poll_once. apply returns_bind_perform. world_simpl.
    rewrite Hlate. exact H. }
  assert (Hattr : forall v k d e, py_get v k d = inl e ->
            exists msg, e = ValueError msg \/ e = AttributeError msg).
  { intros v k d e H. apply py_get_error in H. eexists. right. exact H. }
  destruct Hclass as [(resp & result & _ & _ & _ & ->)|(msg & ->)].
  2:{ eexists _, _. split.
      - apply Henter. apply returns_bind_exn. exact Hget.
      - right. split; [eexists; left; reflexivity | trace_step]. }
  destruct (py_get result "code" PNone) as [e|code] eqn:Hcode.
  { eexists _, _. split.
    - apply Henter. eapply returns_bind_ok; [exact Hget|]. poll_tail.
    - right. split; [eapply Hattr; exact Hcode | trace_step]. }
  destruct (py_eq_int code 0) eqn:Hzero.
  2:{ destruct (py_get result "msg" (PStr "未知错误")) as [e|error_msg] eqn:Hmsg.
      - eexists _, _. split.
        + apply Henter. eapply returns_bind_ok; [exact Hget|]. poll_tail.
        + right. split; [eapply Hattr; exact Hmsg | trace_step].
      - eexists _, _. split.
        + apply Henter. eapply returns_bind_ok; [exact Hget|]. poll_tail.
        + right. split; [eexists; left; reflexivity | trace_step]. }
  destruct (py_get result "data" (PDict [])) as [e|data] eqn:Hdata.
  { eexists _, _. split.
    - apply Henter. eapply returns_bind_ok; [exact Hget|]. poll_tail.
    - right. split; [eapply Hattr; exact Hdata | trace_step]. }
  destruct (py_get data "state" PNone) as [e|status] eqn:Hstate.
  { eexists _, _. split.
    - apply Henter. eapply returns_bind_ok; [exact Hget|]. poll_tail.
    - right. split; [eapply Hattr; exact Hstate | trace_step]. }
  destruct (py_eq_str status "done") eqn:Hdone.
  { exists (queried endpoint (after Time w)), (inr (Some data)). split.
    - apply Henter. eapply returns_bind_ok; [exact Hget|]. poll_tail.
    - split; [|trace_step].
      destruct status; try discriminate. cbn in Hdone.
      apply String.eqb_eq in Hdone. subst s. exact Hstate. }
  destruct (py_eq_str status "failed") eqn:Hfailed.
  { destruct (py_get data "err_msg" (PStr "任务执行失败")) as [e|error_msg] eqn:Hmsg.
    - eexists _, _. split.
      + apply Henter. eapply returns_bind_ok; [exact Hget|]. poll_tail.
      + right. split; [eapply Hattr; exact Hmsg | trace_step].
    - eexists _, _. split.
      + apply Henter. eapply returns_bind_ok; [exact Hget|]. poll_tail.
      + right. split; [eexists; left; reflexivity | trace_step]. }
  exists (polled endpoint poll_interval w), (inr None). split.
  - apply Henter. eapply returns_bind_ok; [exact Hget|]. poll_tail.
  - unfold turn_outcome. trace_step.
Qed.

(** Every finished wait ended in one of the ways of [wait_outcome]. *)
Lemma wait_for_result_ensures (w : world) :
  ensures (wait_for_result py_repr http_error_text self task_id
             poll_interval max_wait_time) w
    (wait_outcome endpoint poll_interval max_wait_time w).
Proof.
  unfold wait_for_result. apply ensures_bind_perform. world_simpl.
  unfold poll_loop.
  apply ensures_while
    with (Inv := fun w1 => exists n,
            trace w1 = (trace w ++ EvTime :: turns endpoint poll_interval n)%list).
  2:{ exists 0%nat. world_simpl. reflexivity. }
  intros w1 [n Hinv].
  destruct (poll_once_total (clock w) w1) as (w2 & r & Hret & Hout).
  exists w2, r. split; [exact Hret|].
  unfold turn_outcome in Hout.
  destruct r as [e|[data|]].
  - exists n. destruct Hout as [(-> & Hover & Htr)|(Hcls & Htr)].
    + left. split; [reflexivity|]. split; [exact Hover|].
      rewrite Htr, Hinv, <- app_assoc. reflexivity.
    + right. split; [exact Hcls|].
      rewrite Htr, Hinv, <- app_assoc. reflexivity.
  - exists n. destruct Hout as [Hdone Htr]. split; [exact Hdone|].
    rewrite Htr, Hinv, <- app_assoc. reflexivity.
  - exists (S n). rewrite Hout, Hinv, <- app_assoc, <- turns_snoc. reflexivity.
Qed.

End PollingLaws.

Section PollingTheorems.

Variable py_repr : pyval -> string.
Variable http_error_text : response -> string.
Variable self : MineruAPIClient.
Variable task_id : pyval.
Variables poll_interval max_wait_time : Z.

Local Abbreviation endpoint := (RESULT_ENDPOINT (py_str py_repr task_id)).

(** X7: whenever [wait_for_result] returns, what it returns is the data of
    a task in state ["done"], and the poller has slept for the poll interval
    exactly once after every status query but the last: [n] sleeps for
    [n + 1] queries. *)
Theorem wait_returns_done_data (w w' : world) (data : pyval) :
  returns (wait_for_result py_repr http_error_text self task_id
             poll_interval max_wait_time) w w' (inr data) ->
  py_get data "state" PNone = inr (PStr "done") /\
  exists n,
    filter is_sleep (events_since w w') = repeat (EvSleep poll_interval) n /\
    filter is_get (events_since w w') = repeat (EvGet endpoint) (S n).
Proof.
  intros Hret.
  destruct (wait_for_result_ensures py_repr http_error_text self task_id
              poll_interval max_wait_time w w' (inr data) Hret) as (n & Hdone & Htr).
  split; [exact Hdone|]. exists n.
  rewrite (events_since_app _ _ _ Htr).
  destruct (filter_turns endpoint poll_interval n) as [Hs Hg].
  cbn [filter is_sleep is_get]. rewrite !filter_app, Hs, Hg. cbn [filter is_sleep is_get].
  split.
  - apply app_nil_r.
  - rewrite <- repeat_cons. reflexivity.
Qed.

(** X8: the wait is never cut short.  Whenever [wait_for_result] raises
    [TimeoutError], the message names the configured maximum and more than
    that maximum has passed on the clock since the start; every query before
    it was followed by its sleep. *)
Theorem timeout_only_after_the_wait (w w' : world) (msg : string) :
  returns (wait_for_result py_repr http_error_text self task_id
             poll_interval max_wait_time) w w' (inl (TimeoutError msg)) ->
  TimeoutError msg = timeout_error max_wait_time /\
  max_wait_time < clock w' - clock w /\
  exists n,
    filter is_sleep (events_since w w') = repeat (EvSleep poll_interval) n /\
    filter is_get (events_since w w') = repeat (EvGet endpoint) n.
Proof.
  intros Hret.
  destruct (wait_for_result_ensures py_repr http_error_text self task_id
              poll_interval max_wait_time w w' (inl (TimeoutError msg)) Hret)
    as (n & [(Heq & Hover & Htr)|((m & [H|H]) & _)]); try discriminate.
  split; [exact Heq|]. split; [exact Hover|]. exists n.
  rewrite (events_since_app _ _ _ Htr).
  destruct (filter_turns endpoint poll_interval n) as [Hs Hg].
  cbn [filter is_sleep is_get]. rewrite !filter_app, Hs, Hg. cbn [filter is_sleep is_get].
  split; apply app_nil_r.
Qed.

(** X9: the exceptions of the poller.  Whatever the service answers,
    [wait_for_result] raises nothing but the [TimeoutError] of its deadline,
    a [ValueError], or the [AttributeError] of a reply whose JSON is not of
    the expected shape; and the only requests it ever sends are GETs of the
    task's path. *)
Theorem wait_raises_only (w w' : world) (e : exn) :
  returns (wait_for_result py_repr http_error_text self task_id
             poll_interval max_wait_time) w w' (inl e) ->
  (e = timeout_error max_wait_time \/
   (exists msg, e = ValueError msg) \/
   (exists msg, e = AttributeError msg)) /\
  exists n, filter is_network (events_since w w') = repeat (EvGet endpoint) n.
Proof.
  intros Hret.
  assert (Hnet : forall n, filter is_network (turns endpoint poll_interval n)
                           = repeat (EvGet endpoint) n).
  { intros n. unfold turns. induction n as [|n IH]; [reflexivity|].
    cbn [repeat List.concat]. rewrite filter_app, IH. reflexivity. }
  destruct (wait_for_result_ensures py_repr http_error_text self task_id
              poll_interval max_wait_time w w' (inl e) Hret)
    as (n & [(Heq & _ & Htr)|((m & Hcls) & Htr)]).
  - split; [left; exact Heq|]. exists n.
    rewrite (events_since_app _ _ _ Htr).
    cbn [filter is_network]. rewrite filter_app, Hnet. apply app_nil_r.
  - split; [right; destruct Hcls as [->| ->]; [left | right]; eexists; reflexivity|].
    exists (S n). rewrite (events_since_app _ _ _ Htr).
    cbn [filter is_network]. rewrite filter_app, Hnet. cbn [filter is_network].
    rewrite <- repeat_cons. reflexivity.
Qed.

End PollingTheorems.


Section PollingAborts.

Variable py_repr : pyval -> string.
Variable http_error_text : response -> string.
Variable self : MineruAPIClient.
Variable task_id : pyval.
Variables poll_interval max_wait_time : Z.

Local Abbreviation endpoint := (RESULT_ENDPOINT (py_str py_repr task_id)).
Local Abbreviation wait_for_result' :=
  (wait_for_result py_repr http_error_text self task_id poll_interval max_wait_time).






(** X13: a negative maximum wait.  The deadline is tested before the first
    query, so with a maximum below zero the poller raises [TimeoutError]
    having read the clock twice and sent nothing. *)
Theorem negative_wait_never_queries (w : world) :
  max_wait_time < 0 ->
  let w' := after Time (after Time w) in
  returns wait_for_result' w w' (inl (timeout_error max_wait_time)) /\
  events_since w w' = [EvTime; EvTime] /\
  filter is_network (events_since w w') = [].
Proof.
  intros Hneg w'.
  assert (Hev : events_since w w' = [EvTime; EvTime]).
  { apply events_since_app. subst w'. world_simpl. rewrite <- !app_assoc. reflexivity. }
  split; [|split; [exact Hev | rewrite Hev; reflexivity]].
  unfold wait_for_result. apply returns_bind_perform. world_simpl.
  unfold poll_loop. apply returns_while_raise.
  apply (poll_once_timeout py_repr http_error_text self task_id poll_interval
           max_wait_time (clock w) (log EvTime w)).
  world_simpl. lia.
Qed.

End PollingAborts.

(** ** Construction *)

Lemma truthy_opt_spec (o : option string) :
  truthy_opt o = true <-> exists s, o = Some s /\ s <> "".
Proof.
  destruct o as [s|]; cbn.
  - destruct (String.eqb_spec s ""); cbn; split.
    + discriminate.
    + intros (s' & H & Hne). injection H as <-. contradiction.
    + intros _. exists s. auto.
    + reflexivity.
  - split; [discriminate | intros (s & H & _); discriminate].
Qed.

(** X14: when the client is available.  A client is available exactly when
    a non-empty key was passed to it or, failing that, the variable
    [MINERU_API_KEY] is set to a non-empty value; a key that is passed wins
    over the environment.  [is_mineru_available()] passes no key, so it is
    the test of the variable alone. *)
Theorem availability_of_configuration
    (env : string -> option string) (api_key' base_url' : option string) (timeout' : Z) :
  (is_available (__init__ env api_key' base_url' timeout') = true <->
   (exists k, api_key' = Some k /\ k <> "") \/
   (exists v, env "MINERU_API_KEY" = Some v /\ v <> "")) /\
  (forall k, api_key' = Some k -> k <> "" ->
     api_key (__init__ env api_key' base_url' timeout') = k) /\
  (is_mineru_available env = true <->
   exists v, env "MINERU_API_KEY" = Some v /\ v <> "").
Proof.
  assert (Henv : forall e : string -> option string,
            negb (getenv e "MINERU_API_KEY" "" =? "")%string = true <->
            exists v, e "MINERU_API_KEY" = Some v /\ v <> "").
  { intros e. unfold getenv. destruct (e "MINERU_API_KEY") as [v|].
    - destruct (String.eqb_spec v ""); cbn; split.
      + discriminate.
      + intros (v' & H & Hne). injection H as <-. contradiction.
      + intros _. exists v. auto.
      + reflexivity.
    - cbn. split; [discriminate | intros (v & H & _); discriminate]. }
  split; [|split].
  - unfold is_available, __init__, opt_or. cbn [api_key].
    destruct (truthy_opt api_key') eqn:Hk.
    + apply truthy_opt_spec in Hk as (k & -> & Hne). cbn [from_opt].
      destruct (String.eqb_spec k ""); [contradiction|]. cbn.
      split; [intros _; left; exists k; auto | reflexivity].
    + rewrite Henv. split; [intros H; right; exact H|].
      intros [Hex|H]; [|exact H].
      apply truthy_opt_spec in Hex. congruence.
  - intros k -> Hne. unfold __init__, opt_or. cbn [api_key truthy_opt].
    destruct (String.eqb_spec k ""); [contradiction | reflexivity].
  - unfold is_mineru_available, is_available, __init__, opt_or.
    cbn [api_key truthy_opt]. apply Henv.
Qed.

(** X15: the base URL of a client is never empty.  It is the URL passed,
    when one is and is not empty; else the value of [MINERU_BASE_URL], when
    set and not empty; else the default address of the service. *)
Theorem base_url_is_never_empty
    (env : string -> option string) (api_key' base_url' : option string) (timeout' : Z) :
  base_url (__init__ env api_key' base_url' timeout') <> "" /\
  (forall b, base_url' = Some b -> b <> "" ->
     base_url (__init__ env api_key' base_url' timeout') = b) /\
  (truthy_opt base_url' = false ->
   forall v, env "MINERU_BASE_URL" = Some v -> v <> "" ->
     base_url (__init__ env api_key' base_url' timeout') = v) /\
  (truthy_opt base_url' = false ->
   getenv env "MINERU_BASE_URL" "" = "" ->
   base_url (__init__ env api_key' base_url' timeout') = DEFAULT_BASE_URL).
Proof.
  unfold __init__. cbn [base_url]. split; [|split; [|split]].
  - unfold str_or.
    destruct (String.eqb_spec (opt_or base_url' (getenv env "MINERU_BASE_URL" "")) "")
      as [_|Hne]; [discriminate | exact Hne].
  - intros b -> Hne. unfold opt_or, str_or. cbn [truthy_opt from_opt].
    destruct (String.eqb_spec b ""); [contradiction|]. cbn.
    destruct (String.eqb_spec b ""); [contradiction | reflexivity].
  - intros Hb v Hv Hne. unfold opt_or, str_or, getenv. rewrite Hb, Hv.
    destruct (String.eqb_spec v ""); [contradiction | reflexivity].
  - intros Hb Hv. unfold opt_or, str_or. rewrite Hb, Hv. reflexivity.
Qed.

(** ** The pooled connection *)

Lemma mark_closed_nth (c i : nat) (flags : list bool) :
  nth i (Connection.mark_closed c flags) true
  = if Nat.eqb i c then true else nth i flags true.
Proof.
  revert c i. induction flags as [|f rest IH]; intros c i.
  - destruct c, i; cbn; try reflexivity; destruct (Nat.eqb i c); reflexivity.
  - destruct c as [|c], i as [|i]; cbn; try reflexivity. apply IH.
Qed.

Lemma mark_closed_length (c : nat) (flags : list bool) :
  List.length (Connection.mark_closed c flags) = List.length flags.
Proof.
  revert c. induction flags as [|f rest IH]; intros c; [destruct c; reflexivity|].
  destruct c; cbn; [reflexivity | rewrite IH; reflexivity].
Qed.

Lemma make_is_open (st : Connection.state) :
  Connection.is_closed (fst (Connection.make st)) (snd (Connection.make st)) = false.
Proof.
  unfold Connection.is_closed, Connection.make. cbn.
  rewrite app_nth2, Nat.sub_diag; [reflexivity | lia].
Qed.

Lemma make_keeps_tidy (st : Connection.state) :
  (forall c, Connection.is_closed st c = true) ->
  Connection.tidy (fst (Connection.make st)).
Proof.
  intros Hall c Hc. unfold Connection.is_closed, Connection.make in *. cbn in *.
  destruct (Nat.lt_ge_cases c (List.length (Connection.clients st))) as [Hlt|Hge].
  - rewrite app_nth1 by exact Hlt. apply Hall.
  - destruct (Nat.eq_dec c (List.length (Connection.clients st))) as [->|Hne];
      [contradiction Hc; reflexivity|].
    apply nth_overflow. rewrite length_app. cbn. lia.
Qed.

(** After [_get_client] the instance holds the connection returned, and it
    is open. *)
Lemma connection_open_after_get (st : Connection.state) :
  Connection._client (fst (Connection._get_client st))
    = Some (snd (Connection._get_client st)) /\
  Connection.is_closed (fst (Connection._get_client st))
    (snd (Connection._get_client st)) = false.
Proof.
  unfold Connection._get_client.
  destruct (Connection._client st) as [c|] eqn:Hc;
    [|split; [reflexivity | apply make_is_open]].
  destruct (Connection.is_closed st c) eqn:Hclosed;
    [split; [reflexivity | apply make_is_open] | split; assumption].
Qed.

(** X16: no connection is left open behind.  Starting from a new instance,
    and through any sequence of [_get_client] and [close], every connection
    the instance has made is closed, except the one it holds; and after
    [_get_client] it holds the connection returned, which is open. *)
Theorem connection_stays_tidy (st : Connection.state) :
  Connection.tidy Connection.fresh /\
  (Connection.tidy st ->
   Connection.tidy (fst (Connection._get_client st)) /\
   Connection.tidy (Connection.close st)) /\
  Connection._client (fst (Connection._get_client st))
    = Some (snd (Connection._get_client st)) /\
  Connection.is_closed (fst (Connection._get_client st))
    (snd (Connection._get_client st)) = false.
Proof.
  split; [|split; [|split]].
  - intros c _. unfold Connection.is_closed. cbn. destruct c; reflexivity.
  - intros Htidy. split.
    + unfold Connection._get_client.
      destruct (Connection._client st) as [c|] eqn:Hc.
      * destruct (Connection.is_closed st c) eqn:Hclosed; [|cbn; exact Htidy].
        apply make_keeps_tidy. intros i.
        destruct (Nat.eq_dec i c) as [->|Hne]; [exact Hclosed|].
        apply Htidy. congruence.
      * apply make_keeps_tidy. intros i. apply Htidy. congruence.
    + unfold Connection.close.
      destruct (Connection._client st) as [c|] eqn:Hc; [|exact Htidy].
      destruct (Connection.is_closed st c) eqn:Hclosed; cbn [negb]; [exact Htidy|].
      intros i _. unfold Connection.is_closed. cbn. rewrite mark_closed_nth.
      destruct (Nat.eqb_spec i c) as [_|Hne]; [reflexivity|].
      apply Htidy. congruence.
  - unfold Connection._get_client.
    destruct (Connection._client st) as [c|] eqn:Hc; [|reflexivity].
    destruct (Connection.is_closed st c); [reflexivity | exact Hc].
  - unfold Connection._get_client.
    destruct (Connection._client st) as [c|] eqn:Hc; [|apply make_is_open].
    destruct (Connection.is_closed st c) eqn:Hclosed;
      [apply make_is_open | exact Hclosed].
Qed.

(** X17: the connection is reused until it is closed.  A second
    [_get_client] returns the connection of the first and makes nothing;
    [close] twice is [close] once; and the [_get_client] that follows a
    [close] makes a connection that did not exist before. *)
Theorem connection_is_reused_until_closed (st : Connection.state) :
  Connection._get_client (fst (Connection._get_client st))
    = (fst (Connection._get_client st), snd (Connection._get_client st)) /\
  Connection.close (Connection.close st) = Connection.close st /\
  snd (Connection._get_client (Connection.close st))
    = List.length (Connection.clients st) /\
  List.length (Connection.clients (fst (Connection._get_client (Connection.close st))))
    = S (List.length (Connection.clients st)).
Proof.
  assert (Hopen : forall s c, Connection._client s = Some c ->
            Connection.is_closed s c = false ->
            Connection._get_client s = (s, c)).
  { intros s c Hc Ho. unfold Connection._get_client. rewrite Hc, Ho. reflexivity. }
  assert (Hclosed : forall s,
            match Connection._client s with
            | Some c => Connection.is_closed s c = true
            | None => True
            end ->
            Connection._get_client s = Connection.make s).
  { intros s H. unfold Connection._get_client.
    destruct (Connection._client s) as [c|]; [rewrite H|]; reflexivity. }
  assert (Hafter : match Connection._client (Connection.close st) with
                   | Some c => Connection.is_closed (Connection.close st) c = true
                   | None => True
                   end /\
                   List.length (Connection.clients (Connection.close st))
                   = List.length (Connection.clients st)).
  { unfold Connection.close.
    destruct (Connection._client st) as [c|] eqn:Hc; [|rewrite Hc; auto].
    destruct (Connection.is_closed st c) eqn:Ho; cbn [negb].
    - rewrite Hc. auto.
    - cbn. split; [exact I | apply mark_closed_length]. }
  destruct Hafter as [Hnone Hlen].
  split; [|split; [|split]].
  - destruct (connection_open_after_get st) as [Hheld Hop]. apply Hopen; assumption.
  - unfold Connection.close at 1.
    destruct (Connection._client (Connection.close st)) as [c|] eqn:Hc; [|reflexivity].
    rewrite Hnone. reflexivity.
  - rewrite (Hclosed _ Hnone). cbn. exact Hlen.
  - rewrite (Hclosed _ Hnone). cbn. rewrite length_app, Hlen. cbn. lia.
Qed.

(** ** The pipeline: submit, wait, fetch *)

Lemma py_get_ok_dict (v : pyval) (k : string) (default x : pyval) :
  py_get v k default = inr x -> exists d, v = PDict d.
Proof. destruct v; cbn; intros H; try discriminate. eexists. reflexivity. Qed.

Section Pipeline.

Variable py_repr : pyval -> string.
Variable http_error_text : response -> string.
Variable open_zip : bytes -> option ZipFile.
Variable self : MineruAPIClient.

(** A download always ends in a string. *)
Lemma download_total (w : world) (url : pyval) :
  exists w' s,
    returns (_download_markdown http_error_text open_zip self url) w w' (inr (PStr s)).
Proof.
  destruct url as [| | | |u| |];
    try (exists w, ""; apply download_not_str; intros u; discriminate).
  destruct (outcome (on_fetch w u)) as [msg|r] eqn:Hout.
  { eexists _, _. eapply download_net_error. exact Hout. }
  destruct (is_success r) eqn:Hok.
  2:{ eexists _, _. eapply download_bad_status; eassumption. }
  destruct (endswith u ".zip") eqn:Hext.
  - eexists _, _. apply download_zip; [split; eassumption | exact Hext].
  - eexists _, _. apply download_plain; [split; eassumption | exact Hext].
Qed.

(** From the result of a finished task there is always a content. *)
Lemma result_markdown_total (w : world) (d : list (string * pyval)) :
  exists w' content,
    returns (result_markdown http_error_text open_zip self (PDict d)) w w' (inr content).
Proof.
  destruct (select_url (PDict d)) as [e|md_url] eqn:Hsel.
  { unfold select_url in Hsel. cbn in Hsel. destruct (truthy _) in Hsel; discriminate. }
  destruct (truthy md_url) eqn:Htrue.
  - destruct (download_total w md_url) as (w' & s & Hret).
    exists w', (PStr s).
    eapply returns_eutt; [eapply result_markdown_url; eassumption | exact Hret].
  - eexists _, _.
    eapply returns_eutt; [eapply result_markdown_inline; eassumption|].
    cbn. apply returns_lift.
Qed.

(** X18: a failure stops the pipeline where it happens.  When the
    submission raises, [extract_markdown] raises the same error in the same
    world: the task is never polled.  When the wait raises, it raises that
    error: nothing is fetched.  The wait is always made with the default
    interval 3 and the default maximum 300. *)
Theorem failures_stop_the_pipeline
    (w : world) (file_path pdf_url : option string)
    (enable_ocr enable_formula enable_table : bool) (language : string) :
  truthy_opt file_path || truthy_opt pdf_url = true ->
  let submit :=
    if truthy_opt file_path then
      create_task_from_file py_repr http_error_text self (from_opt file_path)
        enable_ocr enable_formula enable_table language
    else
      create_task_from_url py_repr http_error_text self (from_opt pdf_url)
        enable_ocr enable_formula enable_table language in
  (forall w1 e,
     returns submit w w1 (inl e) ->
     returns (extract_markdown py_repr http_error_text open_zip self file_path pdf_url
                enable_ocr enable_formula enable_table language) w w1 (inl e)) /\
  (forall w1 task_id w2 e,
     returns submit w w1 (inr task_id) ->
     returns (wait_for_result py_repr http_error_text self task_id 3 300)
       w1 w2 (inl e) ->
     returns (extract_markdown py_repr http_error_text open_zip self file_path pdf_url
                enable_ocr enable_formula enable_table language) w w2 (inl e)).
Proof.
  intros Hgiven submit.
  assert (Hguard : negb (truthy_opt file_path) && negb (truthy_opt pdf_url) = false).
  { destruct (truthy_opt file_path), (truthy_opt pdf_url); try reflexivity.
    discriminate. }
  split.
  - intros w1 e Hsub. unfold extract_markdown. rewrite Hguard.
    apply returns_bind_exn. exact Hsub.
  - intros w1 task_id w2 e Hsub Hwait. unfold extract_markdown. rewrite Hguard.
    eapply returns_bind_ok; [exact Hsub|].
    apply returns_bind_exn. exact Hwait.
Qed.

(** X19: once the task is done the call cannot fail.  When the submission
    returned a task id and the wait returned the data of the task,
    [extract_markdown] returns: a content, and the dictionary of the task
    id, the page count (0 when the service gives none) and the processing
    time ([None] when it gives none).  A download that fails only makes the
    content empty. *)
Theorem done_task_yields_a_result
    (w w1 w2 : world) (file_path pdf_url : option string)
    (enable_ocr enable_formula enable_table : bool) (language : string)
    (task_id data : pyval) :
  truthy_opt file_path || truthy_opt pdf_url = true ->
  returns (if truthy_opt file_path then
             create_task_from_file py_repr http_error_text self (from_opt file_path)
               enable_ocr enable_formula enable_table language
           else
             create_task_from_url py_repr http_error_text self (from_opt pdf_url)
               enable_ocr enable_formula enable_table language)
    w w1 (inr task_id) ->
  returns (wait_for_result py_repr http_error_text self task_id 3 300)
    w1 w2 (inr data) ->
  exists w3 content d,
    data = PDict d /\
    returns (extract_markdown py_repr http_error_text open_zip self file_path pdf_url
               enable_ocr enable_formula enable_table language) w w3
      (inr (content,
            PDict [("task_id", task_id);
                   ("pages", match assoc_get "pages" d with
                             | Some v => v
                             | None => PInt 0
                             end);
                   ("processing_time", match assoc_get "processing_time" d with
                                       | Some v => v
                                       | None => PNone
                                       end)])).
Proof.
  intros Hgiven Hsub Hwait.
  assert (Hguard : negb (truthy_opt file_path) && negb (truthy_opt pdf_url) = false).
  { destruct (truthy_opt file_path), (truthy_opt pdf_url); try reflexivity.
    discriminate. }
  destruct (wait_for_result_ensures py_repr http_error_text self task_id 3 300
              w1 w2 (inr data) Hwait) as (n & Hdone & _).
  apply py_get_ok_dict in Hdone as [d ->].
  destruct (result_markdown_total w2 d) as (w3 & content & Hfetch).
  exists w3, content, d. split; [reflexivity|].
  unfold extract_markdown. rewrite Hguard.
  eapply returns_bind_ok; [exact Hsub|].
  eapply returns_bind_ok; [exact Hwait|].
  eapply returns_bind_ok; [exact Hfetch|].
  eapply returns_bind_lift; [reflexivity|].
  eapply returns_bind_lift; [reflexivity|].
  apply returns_pure.
Qed.

End Pipeline.

(** ** The submitted file: its encoding and its name *)

Lemma list_byte_of_String (c : ascii) (s : string) :
  list_byte_of_string (String c s) = byte_of_ascii c :: list_byte_of_string s.
Proof. reflexivity. Qed.

Lemma utf8_ascii (bs : bytes) :
  Forall (fun b => (Byte.to_N b < 128)%N) bs -> utf8_run U0 bs = Some U0.
Proof.
  induction 1 as [|b bs Hb _ IH]; [reflexivity|].
  cbn [utf8_run utf8_step]. apply N.ltb_lt in Hb. rewrite Hb. exact IH.
Qed.

Lemma b64_char_ascii (n : N) :
  (n < 64)%N -> (Byte.to_N (byte_of_ascii (b64_char n)) < 128)%N.
Proof.
  intros Hn. apply N.ltb_lt.
  apply (all_below_spec 64
           (fun n => (Byte.to_N (byte_of_ascii (b64_char n)) <? 128)%N));
    [vm_compute; reflexivity | exact Hn].
Qed.

Lemma b64encode_ascii (bs : bytes) :
  Forall (fun b => (Byte.to_N b < 128)%N) (list_byte_of_string (b64encode bs)).
Proof.
  assert (Hpad : (Byte.to_N (byte_of_ascii b64_pad) < 128)%N) by (vm_compute; reflexivity).
  induction bs as [|a|a b|a b c rest IH] using list_ind3.
  - constructor.
  - pose proof (Byte.to_N_bounded a) as Ha.
    cbn [b64encode]. rewrite !list_byte_of_String.
    repeat (constructor; try exact Hpad; try (apply b64_char_ascii; digits_arith)).
  - pose proof (Byte.to_N_bounded a) as Ha. pose proof (Byte.to_N_bounded b) as Hb.
    cbn [b64encode]. rewrite !list_byte_of_String.
    repeat (constructor; try exact Hpad; try (apply b64_char_ascii; digits_arith)).
  - pose proof (Byte.to_N_bounded a) as Ha. pose proof (Byte.to_N_bounded b) as Hb.
    pose proof (Byte.to_N_bounded c) as Hc.
    cbn [b64encode]. rewrite !list_byte_of_String.
    repeat (constructor; try (apply b64_char_ascii; digits_arith)). exact IH.
Qed.

(** X20: the [file] field is plain ASCII of a known length.  The bytes
    that [b64encode] gives always decode as UTF-8, to the same text, so the
    [decode("utf-8")] of line 130 cannot raise; and the text is four
    characters for every three bytes of the file, the last group padded. *)
Theorem file_field_is_ascii (file_content : bytes) :
  decode_utf8 (list_byte_of_string (b64encode file_content))
    = Some (b64encode file_content) /\
  String.length (b64encode file_content)
    = (4 * ((List.length file_content + 2) / 3))%nat.
Proof.
  split.
  - unfold decode_utf8. rewrite (utf8_ascii _ (b64encode_ascii file_content)).
    rewrite string_of_list_byte_of_string. reflexivity.
  - induction file_content as [|a|a b|a b c rest IH] using list_ind3;
      try reflexivity.
    cbn [b64encode String.length List.length]. rewrite IH.
    replace (S (S (S (List.length rest))) + 2)%nat
      with (List.length rest + 2 + 1 * 3)%nat by lia.
    rewrite Nat.div_add by discriminate. lia.
Qed.

(** Splitting a path at a slash, and a component without one. *)
Lemma split_slash_app (a b cur : string) :
  split_slash (a ++ String "/" b) cur
  = (split_slash a cur ++ split_slash b "")%list.
Proof.
  revert cur. induction a as [|c a IH]; intros cur; [reflexivity|].
  cbn [append split_slash]. destruct (Ascii.eqb c "/").
  - rewrite IH. reflexivity.
  - apply IH.
Qed.

Lemma split_slash_plain (name cur : string) :
  no_slash name = true ->
  split_slash name cur = [rev_string_acc cur name].
Proof.
  revert cur. induction name as [|c name IH]; intros cur Hplain; [reflexivity|].
  cbn [no_slash] in Hplain. apply andb_prop in Hplain as [Hc Hrest].
  cbn [split_slash]. apply negb_true_iff in Hc. rewrite Hc.
  rewrite (IH _ Hrest). reflexivity.
Qed.

(** X21: the file name sent is the last component of the path.  For a path
    made of a directory part, a slash and a plain name (not empty, not ["."],
    without a slash), [path_name] is that name, whatever the directory part
    is; so no directory of the caller reaches the service. *)
Theorem file_name_is_last_component (dir name : string) :
  no_slash name = true -> name <> "" -> name <> "." ->
  path_name (dir ++ String "/" name) = name /\ path_name name = name.
Proof.
  intros Hplain Hne Hdot.
  assert (Hkeep : negb ((name =? "")%string || (name =? ".")%string) = true).
  { destruct (String.eqb_spec name ""); [contradiction|].
    destruct (String.eqb_spec name "."); [contradiction | reflexivity]. }
  split.
  - unfold path_name. rewrite split_slash_app, (split_slash_plain name "" Hplain).
    cbn [rev_string_acc]. rewrite filter_app. cbn [filter]. rewrite Hkeep.
    apply last_last.
  - unfold path_name. rewrite (split_slash_plain name "" Hplain).
    cbn [rev_string_acc filter]. rewrite Hkeep. reflexivity.
Qed.

(** ** The further properties at work in the scenarios *)

Lemma no_key_no_request_witness :
  returns (create_task_from_url Scenario.repr Scenario.error_text Cases.unconfigured
             "https://host.test/paper.pdf" true true true "ch")
    Cases.accepting Cases.accepting
    (inl (ValueError "MinerU API Key 未配置，请设置环境变量 MINERU_API_KEY")).
Proof.
  apply (no_key_no_request Scenario.repr Scenario.error_text Cases.unconfigured
           Cases.accepting PNone "https://host.test/paper.pdf" true true true "ch").
  reflexivity.
Defined.

Lemma create_task_transport_failures_witness :
  returns (_create_task Scenario.repr Scenario.error_text Scenario.client (PDict []))
    Cases.offline
    (after (Post TASK_ENDPOINT (PDict [])) (after AcquireClient Cases.offline))
    (inl (ValueError "MinerU API 调用失败: connection refused")) /\
  returns (_create_task Scenario.repr Scenario.error_text Scenario.client (PDict []))
    Cases.refusing_503
    (after (Post TASK_ENDPOINT (PDict [])) (after AcquireClient Cases.refusing_503))
    (inl (ValueError "MinerU API 请求失败: HTTP 503")).
Proof.
  split.
  - apply (proj1 (create_task_transport_failures Scenario.repr Scenario.error_text
                    Scenario.client Cases.offline (PDict []) eq_refl)).
    reflexivity.
  - apply (proj2 (create_task_transport_failures Scenario.repr Scenario.error_text
                    Scenario.client Cases.refusing_503 (PDict []) eq_refl)
             {| status_code := 503; content := []; text := ""; json := inl "not JSON" |}).
    + reflexivity.
    + reflexivity.
Defined.

Lemma create_task_refusal_witness :
  returns (_create_task Scenario.repr Scenario.error_text Scenario.client (PDict []))
    Cases.refusing_quota
    (after (Post TASK_ENDPOINT (PDict [])) (after AcquireClient Cases.refusing_quota))
    (inl (ValueError "MinerU API 调用失败: MinerU API 错误: quota exceeded")) /\
  returns (_create_task Scenario.repr Scenario.error_text Scenario.client (PDict []))
    Cases.forgetful
    (after (Post TASK_ENDPOINT (PDict [])) (after AcquireClient Cases.forgetful))
    (inl (ValueError "MinerU API 调用失败: MinerU API 返回无效的任务 ID")).
Proof.
  split.
  - apply (proj1 (create_task_refusal_is_rewrapped Scenario.repr Scenario.error_text
                    Scenario.client Cases.refusing_quota (PDict [])
                    {| status_code := 200; content := []; text := "";
                       json := inr (PDict [("code", PInt 1001);
                                           ("msg", PStr "quota exceeded")]) |}
                    (PDict [("code", PInt 1001); ("msg", PStr "quota exceeded")])
                    eq_refl eq_refl eq_refl eq_refl)
             (PInt 1001) (PStr "quota exceeded")); reflexivity.
  - apply (proj2 (create_task_refusal_is_rewrapped Scenario.repr Scenario.error_text
                    Scenario.client Cases.forgetful (PDict [])
                    {| status_code := 200; content := []; text := "";
                       json := inr (PDict [("code", PInt 0); ("data", PDict [])]) |}
                    (PDict [("code", PInt 0); ("data", PDict [])])
                    eq_refl eq_refl eq_refl eq_refl)
             (PInt 0) (PDict []) PNone); reflexivity.
Defined.

Lemma url_submission_witness :
  returns (create_task_from_url Scenario.repr Scenario.error_text Scenario.client
             "https://host.test/paper.pdf" true false true "en")
    Cases.accepting
    (after (Post TASK_ENDPOINT
              (PDict [("url", PStr "https://host.test/paper.pdf");
                      ("is_ocr", PBool true); ("enable_formula", PBool false);
                      ("enable_table", PBool true); ("language", PStr "en")]))
       (after AcquireClient Cases.accepting))
    (inr (PStr "t-1")).
Proof.
  apply (url_submission_returns_task_id Scenario.repr Scenario.error_text
           Scenario.client Cases.accepting "https://host.test/paper.pdf"
           true false true "en"
           {| status_code := 200; content := []; text := "";
              json := inr (PDict [("code", PInt 0);
                                  ("data", PDict [("task_id", PStr "t-1")])]) |}
           (PDict [("code", PInt 0); ("data", PDict [("task_id", PStr "t-1")])])
           (PInt 0) (PDict [("task_id", PStr "t-1")]) (PStr "t-1"));
    reflexivity.
Defined.

(** Three waits, run to their end. *)
Lemma finishing_run :
  returns (wait_for_result Scenario.repr Scenario.error_text Scenario.client
             Scenario.task 3 300)
    Scenario.finishing
    (queried Scenario.endpoint (after Time (polled Scenario.endpoint 3
       (polled Scenario.endpoint 3 (after Time Scenario.finishing)))))
    (inr Scenario.done_inline).
Proof. apply (returns_burn 60). vm_compute. reflexivity. Defined.

Lemma stuck_run :
  returns (wait_for_result Scenario.repr Scenario.error_text Scenario.client
             Scenario.task 3 5)
    Scenario.stuck
    (after Time (polled Scenario.endpoint 3
       (polled Scenario.endpoint 3 (after Time Scenario.stuck))))
    (inl (TimeoutError "等待任务完成超时 (5秒)")).
Proof. apply (returns_burn 60). vm_compute. reflexivity. Defined.

Lemma failing_run :
  returns (wait_for_result Scenario.repr Scenario.error_text Scenario.client
             Scenario.task 3 300)
    Scenario.failing
    (queried Scenario.endpoint (after Time (after Time Scenario.failing)))
    (inl (ValueError "MinerU 解析失败: bad scan")).
Proof. apply (returns_burn 60). vm_compute. reflexivity. Defined.

Lemma wait_returns_done_data_witness :
  py_get Scenario.done_inline "state" PNone = inr (PStr "done") /\
  exists n,
    filter is_sleep (events_since Scenario.finishing
      (queried Scenario.endpoint (after Time (polled Scenario.endpoint 3
         (polled Scenario.endpoint 3 (after Time Scenario.finishing))))))
    = repeat (EvSleep 3) n /\
    filter is_get (events_since Scenario.finishing
      (queried Scenario.endpoint (after Time (polled Scenario.endpoint 3
         (polled Scenario.endpoint 3 (after Time Scenario.finishing))))))
    = repeat (EvGet (RESULT_ENDPOINT (py_str Scenario.repr Scenario.task))) (S n).
Proof.
  apply (wait_returns_done_data Scenario.repr Scenario.error_text Scenario.client
           Scenario.task 3 300 Scenario.finishing _ Scenario.done_inline).
  exact finishing_run.
Defined.

Lemma timeout_only_after_the_wait_witness :
  5 < clock (after Time (polled Scenario.endpoint 3
               (polled Scenario.endpoint 3 (after Time Scenario.stuck))))
      - clock Scenario.stuck.
Proof.
  apply (timeout_only_after_the_wait Scenario.repr Scenario.error_text Scenario.client
           Scenario.task 3 5 Scenario.stuck _ "等待任务完成超时 (5秒)").
  exact stuck_run.
Defined.

Lemma wait_raises_only_witness :
  ValueError "MinerU 解析失败: bad scan" = timeout_error 300 \/
  (exists msg, ValueError "MinerU 解析失败: bad scan" = ValueError msg) \/
  (exists msg, ValueError "MinerU 解析失败: bad scan" = AttributeError msg).
Proof.
  apply (wait_raises_only Scenario.repr Scenario.error_text Scenario.client
           Scenario.task 3 300 Scenario.failing
           (queried Scenario.endpoint (after Time (after Time Scenario.failing)))).
  exact failing_run.
Defined.




Lemma negative_wait_witness :
  returns (wait_for_result Scenario.repr Scenario.error_text Scenario.client
             Scenario.task 3 (-1))
    Scenario.finished (after Time (after Time Scenario.finished))
    (inl (TimeoutError "等待任务完成超时 (-1秒)")).
Proof.
  apply (negative_wait_never_queries Scenario.repr Scenario.error_text
           Scenario.client Scenario.task 3 (-1) Scenario.finished).
  lia.
Defined.


Lemma availability_witness :
  api_key (__init__ Cases.env_with_key (Some "explicit") None 60) = "explicit" /\
  is_mineru_available Cases.env_with_key = true.
Proof.
  destruct (availability_of_configuration Cases.env_with_key (Some "explicit") None 60)
    as (_ & Hwins & Havail).
  split.
  - apply (Hwins "explicit"); [reflexivity | discriminate].
  - apply Havail. exists "secret". split; [reflexivity | discriminate].
Defined.

Lemma base_url_witness :
  base_url (__init__ Cases.env_empty None (Some "https://proxy.test/v4") 60)
    = "https://proxy.test/v4" /\
  base_url (__init__ Cases.env_empty None (Some "") 60) = DEFAULT_BASE_URL.
Proof.
  split.
  - destruct (base_url_is_never_empty Cases.env_empty None
                (Some "https://proxy.test/v4") 60) as (_ & Hgiven & _).
    apply (Hgiven "https://proxy.test/v4"); [reflexivity | discriminate].
  - destruct (base_url_is_never_empty Cases.env_empty None (Some "") 60)
      as (_ & _ & _ & Hdefault).
    apply Hdefault; reflexivity.
Defined.

Lemma connection_stays_tidy_witness :
  Connection.tidy (Connection.close (fst (Connection._get_client Connection.fresh))).
Proof.
  destruct (connection_stays_tidy Connection.fresh) as (Hfresh & Hkeep & _).
  destruct (Hkeep Hfresh) as [Hget _].
  destruct (connection_stays_tidy (fst (Connection._get_client Connection.fresh)))
    as (_ & Hkeep' & _).
  apply (Hkeep' Hget).
Defined.

Lemma refused_submission_run :
  returns (create_task_from_url Scenario.repr Scenario.error_text Scenario.client
             "https://host.test/paper.pdf" true true true "ch")
    Cases.refusing_503
    (after (Post TASK_ENDPOINT
              (PDict [("url", PStr "https://host.test/paper.pdf");
                      ("is_ocr", PBool true); ("enable_formula", PBool true);
                      ("enable_table", PBool true); ("language", PStr "ch")]))
       (after AcquireClient Cases.refusing_503))
    (inl (ValueError "MinerU API 请求失败: HTTP 503")).
Proof. apply (returns_burn 60). vm_compute. reflexivity. Defined.

Lemma failures_stop_the_pipeline_witness :
  returns (extract_markdown Scenario.repr Scenario.error_text Scenario.open_zip
             Scenario.client None (Some "https://host.test/paper.pdf")
             true true true "ch")
    Cases.refusing_503
    (after (Post TASK_ENDPOINT
              (PDict [("url", PStr "https://host.test/paper.pdf");
                      ("is_ocr", PBool true); ("enable_formula", PBool true);
                      ("enable_table", PBool true); ("language", PStr "ch")]))
       (after AcquireClient Cases.refusing_503))
    (inl (ValueError "MinerU API 请求失败: HTTP 503")).
Proof.
  apply (proj1 (failures_stop_the_pipeline Scenario.repr Scenario.error_text
                  Scenario.open_zip Scenario.client Cases.refusing_503
                  None (Some "https://host.test/paper.pdf") true true true "ch"
                  eq_refl)).
  exact refused_submission_run.
Defined.

Lemma file_submission_run :
  returns (create_task_from_file Scenario.repr Scenario.error_text Scenario.client
             "in/paper.pdf" true true true "ch")
    Scenario.finished
    (after (Post TASK_ENDPOINT
              (file_payload Scenario.paper "paper.pdf" true true true "ch"))
       (after AcquireClient (after (ReadFile "in/paper.pdf")
          (after (PathExists "in/paper.pdf") Scenario.finished))))
    (inr (PStr "t-1")).
Proof. apply (returns_burn 60). vm_compute. reflexivity. Defined.

Lemma done_at_once_run :
  returns (wait_for_result Scenario.repr Scenario.error_text Scenario.client
             (PStr "t-1") 3 300)
    (after (Post TASK_ENDPOINT
              (file_payload Scenario.paper "paper.pdf" true true true "ch"))
       (after AcquireClient (after (ReadFile "in/paper.pdf")
          (after (PathExists "in/paper.pdf") Scenario.finished))))
    (queried Scenario.endpoint (after Time (after Time
       (after (Post TASK_ENDPOINT
                 (file_payload Scenario.paper "paper.pdf" true true true "ch"))
          (after AcquireClient (after (ReadFile "in/paper.pdf")
             (after (PathExists "in/paper.pdf") Scenario.finished)))))))
    (inr Scenario.done_inline).
Proof. apply (returns_burn 60). vm_compute. reflexivity. Defined.

Lemma done_task_yields_a_result_witness :
  exists w3 content d,
    Scenario.done_inline = PDict d /\
    returns (extract_markdown Scenario.repr Scenario.error_text Scenario.open_zip
               Scenario.client (Some "in/paper.pdf") None true true true "ch")
      Scenario.finished w3
      (inr (content,
            PDict [("task_id", PStr "t-1");
                   ("pages", match assoc_get "pages" d with
                             | Some v => v
                             | None => PInt 0
                             end);
                   ("processing_time", match assoc_get "processing_time" d with
                                       | Some v => v
                                       | None => PNone
                                       end)])).
Proof.
  eapply (done_task_yields_a_result Scenario.repr Scenario.error_text Scenario.open_zip
            Scenario.client Scenario.finished) with (task_id := PStr "t-1")
                                                    (data := Scenario.done_inline).
  - reflexivity.
  - exact file_submission_run.
  - exact done_at_once_run.
Defined.

Lemma file_name_witness :
  path_name ("/home/user/in" ++ String "/" "paper.pdf") = "paper.pdf" /\
  path_name "paper.pdf" = "paper.pdf".
Proof.
  apply (file_name_is_last_component "/home/user/in" "paper.pdf").
  - reflexivity.
  - discriminate.
  - discriminate.
Defined.
